(** * Rows of a database result set: the [cresultproxy] C extension

    A shallow embedding of [djsqla/sqla/cextension/resultproxy.c]: the
    [BaseRow] type (construction, positional and keyed access, attribute
    access, hashing, pickling support, the [_parent]/[_data]/[_keymap]
    descriptors), the pickle reconstructor and the [tuplegetter] type.

    The file is compiled against CPython 3 ([PY_MAJOR_VERSION >= 3]); the
    embedding follows those branches of the conditional compilation.

    Conventions of the embedding:
    - a [PyObject *] is a value of [PyObject]; a possibly [NULL] pointer is
      an [option PyObject];
    - a C function that returns [NULL] (or [-1]) with the error indicator
      set returns [Err e]; undefined behaviour of the C program (a [NULL]
      dereference, a read past the end of an array) is the outcome [Fault];
    - functions that receive [BaseRow *self] are actions of a state and
      error monad over the [BaseRow] struct;
    - reference counts and allocation failures are not modelled. *)

From stdpp Require Import base numbers list strings pretty.

(** ** Python objects *)

(** The objects the extension handles.  A [str] is a [string] whose
    characters are code points below 256; [bytes] are [string]s too.
    [PyType name mro] is a class object with the names of its proper
    bases in method resolution order; [PyInstance cls id] is any other
    object (a [ResultMetaData], a [Column], a module), compared by
    identity and taken to be neither a sequence, an iterable nor an
    integer. *)
#[local] Unset Elimination Schemes.
Inductive PyObject : Type :=
| Py_None
| PyLong (n : Z)
| PyUnicode (s : string)
| PyTuple (items : list PyObject)
| PyList (items : list PyObject)
| PyDict (entries : list (PyObject * PyObject))
| PySlice (start stop step : PyObject)
| PyType (name : string) (mro : list string)
| PyInstance (cls : string) (id : nat).
#[local] Set Elimination Schemes.

Section list_eqb.
Context {A : Type} (eqb : A -> A -> bool).

Fixpoint list_eqb (l1 l2 : list A) : bool :=
  match l1, l2 with
  | [], [] => true
  | x :: l1', y :: l2' => eqb x y && list_eqb l1' l2'
  | _, _ => false
  end.
End list_eqb.

(** Structural comparison of objects: the model of "the same key" for
    dictionary lookup. *)
Fixpoint PyObject_eqb (a b : PyObject) {struct a} : bool :=
  match a, b with
  | Py_None, Py_None => true
  | PyLong n, PyLong m => (n =? m)%Z
  | PyUnicode s, PyUnicode t => String.eqb s t
  | PyTuple xs, PyTuple ys => list_eqb PyObject_eqb xs ys
  | PyList xs, PyList ys => list_eqb PyObject_eqb xs ys
  | PyDict xs, PyDict ys =>
      (fix entries_eqb (l1 l2 : list (PyObject * PyObject)) : bool :=
         match l1, l2 with
         | [], [] => true
         | (k1, v1) :: l1', (k2, v2) :: l2' =>
             PyObject_eqb k1 k2 && PyObject_eqb v1 v2 && entries_eqb l1' l2'
         | _, _ => false
         end) xs ys
  | PySlice a1 a2 a3, PySlice b1 b2 b3 =>
      PyObject_eqb a1 b1 && PyObject_eqb a2 b2 && PyObject_eqb a3 b3
  | PyType n1 m1, PyType n2 m2 => String.eqb n1 n2 && list_eqb String.eqb m1 m2
  | PyInstance c1 i1, PyInstance c2 i2 => String.eqb c1 c2 && (i1 =? i2)%nat
  | _, _ => false
  end.

(** Structural induction on objects: the items of a tuple, a list, a dict
    and a slice satisfy the property. *)
Section PyObject_ind.
Variable P : PyObject -> Prop.
Hypothesis HNone : P Py_None.
Hypothesis HLong : forall n, P (PyLong n).
Hypothesis HUnicode : forall s, P (PyUnicode s).
Hypothesis HTuple : forall items, Forall P items -> P (PyTuple items).
Hypothesis HList : forall items, Forall P items -> P (PyList items).
Hypothesis HDict :
  forall entries, Forall (fun kv => P kv.1 /\ P kv.2) entries -> P (PyDict entries).
Hypothesis HSlice : forall a b c, P a -> P b -> P c -> P (PySlice a b c).
Hypothesis HType : forall name mro, P (PyType name mro).
Hypothesis HInstance : forall cls id, P (PyInstance cls id).

Fixpoint PyObject_ind (o : PyObject) : P o :=
  match o with
  | Py_None => HNone
  | PyLong n => HLong n
  | PyUnicode s => HUnicode s
  | PyTuple items =>
      HTuple items
        ((fix all (l : list PyObject) : Forall P l :=
            match l with
            | [] => List.Forall_nil P
            | x :: l' => List.Forall_cons P x l' (PyObject_ind x) (all l')
            end) items)
  | PyList items =>
      HList items
        ((fix all (l : list PyObject) : Forall P l :=
            match l with
            | [] => List.Forall_nil P
            | x :: l' => List.Forall_cons P x l' (PyObject_ind x) (all l')
            end) items)
  | PyDict entries =>
      HDict entries
        ((fix all (l : list (PyObject * PyObject))
            : Forall (fun kv => P kv.1 /\ P kv.2) l :=
            match l with
            | [] => List.Forall_nil _
            | (k, v) :: l' =>
                List.Forall_cons _ (k, v) l' (conj (PyObject_ind k) (PyObject_ind v)) (all l')
            end) entries)
  | PySlice a b c => HSlice a b c (PyObject_ind a) (PyObject_ind b) (PyObject_ind c)
  | PyType name mro => HType name mro
  | PyInstance cls id => HInstance cls id
  end.
End PyObject_ind.

(** Objects with a usable [tp_hash]: lists, dicts and slices have none. *)
Fixpoint hashable (o : PyObject) : bool :=
  match o with
  | PyTuple items => forallb hashable items
  | PyList _ | PyDict _ | PySlice _ _ _ => false
  | _ => true
  end.

(** ** Exceptions and results *)

(** The pending exception: its class and its value. *)
Record PyErr := mkPyErr { exc_type : PyObject; exc_value : PyObject }.

Inductive PyResult (A : Type) : Type :=
| Ok (a : A)
| Err (e : PyErr)
| Fault.
Arguments Ok {A} a.
Arguments Err {A} e.
Arguments Fault {A}.

Definition builtin_exc (name : string) (bases : list string) : PyObject :=
  PyType name (bases ++ ["Exception"; "BaseException"]).

Definition PyExc_RuntimeError := builtin_exc "RuntimeError" [].
Definition PyExc_TypeError := builtin_exc "TypeError" [].
Definition PyExc_AttributeError := builtin_exc "AttributeError" [].
Definition PyExc_SystemError := builtin_exc "SystemError" [].
Definition PyExc_KeyError := builtin_exc "KeyError" ["LookupError"].
Definition PyExc_IndexError := builtin_exc "IndexError" ["LookupError"].
Definition PyExc_OverflowError := builtin_exc "OverflowError" ["ArithmeticError"].
Definition PyExc_UnicodeEncodeError :=
  builtin_exc "UnicodeEncodeError" ["UnicodeError"; "ValueError"].

(** [PyErr_GivenExceptionMatches]: the raised class is [cls] or derives
    from it. *)
Definition PyErr_GivenExceptionMatches (given cls : PyObject) : bool :=
  match given, cls with
  | PyType n mro, PyType c _ => String.eqb n c || existsb (String.eqb c) mro
  | _, _ => false
  end.

Definition PyErr_ExceptionMatches (e : PyErr) (cls : PyObject) : bool :=
  PyErr_GivenExceptionMatches (exc_type e) cls.

Definition PyExceptionClass_Check (o : PyObject) : bool :=
  PyErr_GivenExceptionMatches o (PyType "BaseException" []).

(** [PyErr_SetString], and [PyErr_Format] once the message is formatted:
    raising with something that is not an exception class is a
    [SystemError]. *)
Definition PyErr_SetString {A} (exception : PyObject) (msg : string) : PyResult A :=
  if PyExceptionClass_Check exception then Err (mkPyErr exception (PyUnicode msg))
  else Err (mkPyErr PyExc_SystemError
              (PyUnicode "exception is not a BaseException subclass")).

(** ** C strings and formats *)

Definition is_ascii (c : Ascii.ascii) : bool := (Ascii.N_of_ascii c <? 128)%N.

Fixpoint string_forallb (p : Ascii.ascii -> bool) (s : string) : bool :=
  match s with
  | EmptyString => true
  | String c s' => p c && string_forallb p s'
  end.

(** [PyUnicode_AsASCIIString]: the bytes of the text, or
    [UnicodeEncodeError] when a code point is above 127.  The message of
    the error is abbreviated. *)
Definition PyUnicode_AsASCIIString (s : string) : PyResult string :=
  if string_forallb is_ascii s then Ok s
  else PyErr_SetString PyExc_UnicodeEncodeError
         "'ascii' codec can't encode character: ordinal not in range(128)".

(** [PyUnicode_AsASCIIString] called while an exception is pending, as in
    [BaseRow_getattro], where the [KeyError] of the lookup is still set.
    ASCII text is encoded without raising.  For other text the encoder
    builds its [UnicodeEncodeError] by calling the class, and CPython
    answers a call that returns a result with an exception set by
    [SystemError]. *)
Definition PyUnicode_AsASCIIString_pending (s : string) : PyResult string :=
  if string_forallb is_ascii s then Ok s
  else PyErr_SetString PyExc_SystemError
         "<class 'UnicodeEncodeError'> returned a result with an exception set".

(** What [char *] sees of a [bytes] buffer: the bytes before the first NUL. *)
Fixpoint c_str (s : string) : string :=
  match s with
  | EmptyString => EmptyString
  | String c s' =>
      if (Ascii.N_of_ascii c =? 0)%N then EmptyString else String c (c_str s')
  end.

Fixpoint string_take (n : nat) (s : string) : string :=
  match n, s with
  | S n', String c s' => String c (string_take n' s')
  | _, _ => EmptyString
  end.

(** The conversion [%.200s]. *)
Definition fmt_s200 (cstr : string) : string := string_take 200 (c_str cstr).

(** The cast [(int)x] of a [Py_ssize_t]: wraps to 32 bits, signed. *)
Definition INT_MAX : Z := 2147483647.
Definition cast_int (x : Z) : Z := ((x + 2^31) mod 2^32 - 2^31)%Z.

(** The conversion [%d]. *)
Definition fmt_d (x : Z) : string := pretty x.

Definition LONG_MIN : Z := (- 2^63)%Z.
Definition LONG_MAX : Z := (2^63 - 1)%Z.

(** ** The state and error monad *)

Definition M (S A : Type) : Type := S -> PyResult A * S.

Definition ret {S A} (a : A) : M S A := fun s => (Ok a, s).

Definition bind {S A B} (m : M S A) (k : A -> M S B) : M S B :=
  fun s =>
    match m s with
    | (Ok a, s') => k a s'
    | (Err e, s') => (Err e, s')
    | (Fault, s') => (Fault, s')
    end.

(** A call whose outcome does not depend on the struct. *)
Definition lift {S A} (r : PyResult A) : M S A := fun s => (r, s).

Definition gets {S A} (f : S -> A) : M S A := fun s => (Ok (f s), s).

Definition modify {S} (f : S -> S) : M S unit := fun s => (Ok tt, f s).

Declare Scope py_scope.
Delimit Scope py_scope with py.
Notation "x <- c1 ;; c2" := (bind c1 (fun x => c2))
  (at level 100, c1 at next level, right associativity) : py_scope.
Notation "c1 ;; c2" := (bind c1 (fun _ => c2))
  (at level 100, right associativity) : py_scope.

(** The outcome and the final state of an action. *)
Definition outcome {S A} (r : PyResult A * S) : PyResult A := fst r.
Definition final {S A} (r : PyResult A * S) : S := snd r.

(** ** The [BaseRow] struct *)

(** [PyObject_HEAD] contributes the type pointer; the three fields are
    [NULL] until they are set. *)
Record BaseRow := mkBaseRow {
  ob_type : PyObject;
  parent : option PyObject;
  row : option PyObject;
  keymap : option PyObject
}.

Definition set_parent (v : PyObject) : M BaseRow unit :=
  modify (fun self => mkBaseRow (ob_type self) (Some v) (row self) (keymap self)).
Definition set_row (v : PyObject) : M BaseRow unit :=
  modify (fun self => mkBaseRow (ob_type self) (parent self) (Some v) (keymap self)).
Definition set_keymap (v : PyObject) : M BaseRow unit :=
  modify (fun self => mkBaseRow (ob_type self) (parent self) (row self) (Some v)).

(** Reading a field that the C code dereferences without a [NULL] test. *)
Definition deref {S} (f : S -> option PyObject) : M S PyObject :=
  fun s => (match f s with Some o => Ok o | None => Fault end, s).

(** A column processor: any Python callable of one argument. *)
Abbreviation processor := (PyObject -> PyResult PyObject) (only parsing).

(** ** The interpreter
    
    What the extension calls and this file does not define: slots of
    objects of other types, the import system, and the methods that the
    Python classes around [BaseRow] define ([ResultMetaData._key_fallback],
    and [__new__] and [__setstate__] of the row class).  But for
    [__setstate__] they are functions of their arguments: they do not
    assign the fields of a row. *)
Class PyRuntime := {
  (** [tp_hash] of the built-in objects *)
  PyObject_Hash : PyObject -> PyResult Z;
  (** [tp_str] of an object that is not a [str] *)
  tp_str : PyObject -> PyResult string;
  (** [PyObject_GetItem], used with a slice on the value tuple *)
  PyObject_GetItem : PyObject -> PyObject -> PyResult PyObject;
  PyImport_ImportModule : string -> PyResult PyObject;
  PyObject_GetAttrString : PyObject -> string -> PyResult PyObject;
  (** 1, 0, or -1 on error *)
  PyObject_IsInstance : PyObject -> PyObject -> Z;
  (** a method of an object given by name, applied to an argument vector *)
  PyObject_CallMethodArgs : PyObject -> string -> list PyObject -> PyResult PyObject;
  (** attribute lookup through the type: descriptors, methods, instance dict *)
  PyObject_GenericGetAttr : BaseRow -> string -> PyResult PyObject;
  (** [PyObject_CallObject]: calling a callable object *)
  PyObject_CallObject : PyObject -> list PyObject -> PyResult PyObject;
  (** [cls.__new__] of a row class, applied to an argument vector *)
  row_new : PyObject -> list PyObject -> PyResult BaseRow;
  (** the row's [__setstate__], which may assign the fields *)
  row_setstate : list PyObject -> M BaseRow PyObject
}.

(** ** CPython functions with a fixed meaning *)

(** The argument vector that [PyObject_CallMethod(o, name, "O", arg)] and
    [PyObject_CallFunction(f, "O", arg)] build: with the single format
    unit [O], a tuple argument is taken as the whole argument tuple. *)
Definition call_args_O (arg : PyObject) : list PyObject :=
  match arg with
  | PyTuple items => items
  | _ => [arg]
  end.

(** Calling a [METH_O] method of the type [tp_name]. *)
Definition call_METH_O {S A} (name : string) (meth : PyObject -> M S A)
    (args : list PyObject) : M S A :=
  match args with
  | [arg] => meth arg
  | _ =>
      lift (PyErr_SetString PyExc_TypeError
              (name +:+ "() takes exactly one argument (" +:+
               pretty (length args) +:+ " given)"))
  end.

Definition is_tuple (o : PyObject) : bool :=
  match o with PyTuple _ => true | _ => false end.

Definition PyDict_CheckExact (o : PyObject) : bool :=
  match o with PyDict _ => true | _ => false end.

Definition PyLong_CheckExact (o : PyObject) : bool :=
  match o with PyLong _ => true | _ => false end.

Definition PySlice_Check (o : PyObject) : bool :=
  match o with PySlice _ _ _ => true | _ => false end.

(** [PySequence_Check]: the type has [sq_item]. *)
Definition PySequence_Check (o : PyObject) : bool :=
  match o with
  | PyTuple _ | PyList _ | PyUnicode _ => true
  | _ => false
  end.

Fixpoint string_chars (s : string) : list PyObject :=
  match s with
  | EmptyString => []
  | String c s' => PyUnicode (String c EmptyString) :: string_chars s'
  end.

(** The items that iterating over an object yields, for the objects of the
    model that are iterable. *)
Definition iter_items (o : PyObject) : option (list PyObject) :=
  match o with
  | PyTuple items | PyList items => Some items
  | PyUnicode s => Some (string_chars s)
  | PyDict entries => Some (fst <$> entries)
  | _ => None
  end.

(** [PySequence_Fast(o, m)]: the object itself when it is a list or a
    tuple, else a list of its items; [TypeError(m)] when it is not
    iterable.  The result is given by its items. *)
Definition PySequence_Fast (o : PyObject) (m : string) : PyResult (list PyObject) :=
  match iter_items o with
  | Some items => Ok items
  | None => PyErr_SetString PyExc_TypeError m
  end.

Definition PySequence_Tuple (o : PyObject) : PyResult PyObject :=
  match iter_items o with
  | Some items => Ok (PyTuple items)
  | None => PyErr_SetString PyExc_TypeError "object is not iterable"
  end.

Definition PySequence_List (o : PyObject) : PyResult PyObject :=
  match iter_items o with
  | Some items => Ok (PyList items)
  | None => PyErr_SetString PyExc_TypeError "object is not iterable"
  end.

(** [PySequence_Length(o)] with [o] possibly [NULL]. *)
Definition PySequence_Length (o : option PyObject) : PyResult Z :=
  match o with
  | None => PyErr_SetString PyExc_SystemError "null argument to internal routine"
  | Some (PyTuple items) | Some (PyList items) => Ok (Z.of_nat (length items))
  | Some (PyUnicode s) => Ok (Z.of_nat (String.length s))
  | Some (PyDict _) => PyErr_SetString PyExc_TypeError "dict is not a sequence"
  | Some _ => PyErr_SetString PyExc_TypeError "object has no len()"
  end.

(** [PyTuple_GetItem(op, i)] on a non-[NULL] [op]. *)
Definition PyTuple_GetItem (op : PyObject) (i : Z) : PyResult PyObject :=
  match op with
  | PyTuple items =>
      if (i <? 0)%Z then PyErr_SetString PyExc_IndexError "tuple index out of range"
      else match items !! Z.to_nat i with
           | Some v => Ok v
           | None => PyErr_SetString PyExc_IndexError "tuple index out of range"
           end
  | _ => PyErr_SetString PyExc_SystemError "bad argument to internal function"
  end.

(** [PyLong_AsLong] with the test [index == -1 && PyErr_Occurred()] that
    follows each of its calls. *)
Definition PyLong_AsLong (o : PyObject) : PyResult Z :=
  match o with
  | PyLong n =>
      if ((LONG_MIN <=? n) && (n <=? LONG_MAX))%Z then Ok n
      else PyErr_SetString PyExc_OverflowError
             "Python int too large to convert to C long"
  | _ => PyErr_SetString PyExc_TypeError
           "object cannot be interpreted as an integer"
  end.

(** [PyDict_GetItem(d, key)] on a dict: the value, or [NULL] without an
    exception when the key is missing or cannot be hashed. *)
Fixpoint dict_find (entries : list (PyObject * PyObject)) (key : PyObject)
    : option PyObject :=
  match entries with
  | [] => None
  | (k, v) :: rest => if PyObject_eqb k key then Some v else dict_find rest key
  end.

Definition PyDict_GetItem (d key : PyObject) : option PyObject :=
  match d with
  | PyDict entries => if hashable key then dict_find entries key else None
  | _ => None
  end.

(** [PyObject_Str] on a non-[NULL] object: a [str] is returned as it is. *)
Definition PyObject_Str `{PyRuntime} (o : PyObject) : PyResult string :=
  match o with
  | PyUnicode s => Ok s
  | _ => tp_str o
  end.

(** A tuple under construction: [PyTuple_New(n)] has [n] slots that are
    [NULL] until [PyTuple_SET_ITEM] fills them.  A finished tuple has no
    [NULL] slot. *)
Definition PyTuple_New (n : nat) : list (option PyObject) := replicate n None.

Definition PyTuple_finish (slots : list (option PyObject)) : PyResult PyObject :=
  match mapM id slots with
  | Some items => Ok (PyTuple items)
  | None => Fault
  end.

(** ** BaseRow *)

(** [BaseRowType.tp_new = PyType_GenericNew]: a zeroed struct. *)
Definition BaseRow_new (type : PyObject) : BaseRow := mkBaseRow type None None None.

Definition setstate_msg : string :=
  "__setstate__ for BaseRow subclasses must set values for parent, row, and keymap".

Definition safe_rowproxy_reconstructor `{PyRuntime} (cls state : PyObject)
    : PyResult BaseRow :=
  match row_new cls (call_args_O cls) with
  | Ok obj =>
      match row_setstate (call_args_O state) obj with
      | (Ok tmp, obj) =>
          if bool_decide (parent obj = None) || bool_decide (row obj = None)
             || bool_decide (keymap obj = None)
          then PyErr_SetString PyExc_RuntimeError setstate_msg
          else Ok obj
      | (Err e, _) => Err e
      | (Fault, _) => Fault
      end
  | Err e => Err e
  | Fault => Fault
  end.

Definition arity_msg (num_values num_processors : Z) : string :=
  "number of values in row (" +:+ fmt_d (cast_int num_values) +:+
  ") differ from number of column processors (" +:+
  fmt_d (cast_int num_processors) +:+ ")".

(** The loop [while (--num_values >= 0)] of [BaseRow_init]: [valueptr],
    [funcptr] and [resultptr] advance together, so one offset [i] stands
    for the three. *)
Fixpoint BaseRow_init_loop (num_values i : nat) (values : list PyObject)
    (funcs : list (option processor)) (result : list (option PyObject))
    : PyResult (list (option PyObject)) :=
  match num_values with
  | O => Ok result
  | S num_values =>
      match funcs !! i, values !! i, result !! i with
      | Some func, Some value, Some _ =>
          match func with
          | Some f =>
              match f value with
              | Ok processed_value =>
                  BaseRow_init_loop num_values (S i) values funcs
                    (<[i := Some processed_value]> result)
              | Err e => Err e
              | Fault => Fault
              end
          | None =>
              BaseRow_init_loop num_values (S i) values funcs
                (<[i := Some value]> result)
          end
      | _, _, _ => Fault
      end
  end.

(** [BaseRow_init(self, (parent, processors, keymap, row))].  [processors]
    is a list; its [None] entries are [None : option processor]. *)
Definition BaseRow_init (parent' : PyObject) (processors : list (option processor))
    (keymap' row' : PyObject) : M BaseRow unit :=
  (set_parent parent' ;;
   values_fastseq <- lift (PySequence_Fast row' "row must be a sequence") ;;
   let num_values := length values_fastseq in
   let num_processors := length processors in
   if negb (Z.of_nat num_values =? Z.of_nat num_processors)%Z then
     lift (PyErr_SetString PyExc_RuntimeError
             (arity_msg (Z.of_nat num_values) (Z.of_nat num_processors)))
   else
     result <- lift (BaseRow_init_loop num_values 0 values_fastseq processors
                       (PyTuple_New num_values)) ;;
     result <- lift (PyTuple_finish result) ;;
     set_row result ;;
     if negb (PyDict_CheckExact keymap') then
       lift (PyErr_SetString PyExc_TypeError "keymap must be a dict")
     else
       set_keymap keymap' ;;
       ret tt)%py.

(** Calling the type: [tp_new], then [tp_init]; the object is returned
    only when [tp_init] succeeds. *)
Definition BaseRow_call (type parent' : PyObject) (processors : list (option processor))
    (keymap' row' : PyObject) : PyResult BaseRow :=
  match BaseRow_init parent' processors keymap' row' (BaseRow_new type) with
  | (Ok _, self) => Ok self
  | (Err e, _) => Err e
  | (Fault, _) => Fault
  end.

(** [PySequence_Tuple] and [PySequence_List] answer [NULL] with a
    [SystemError]. *)
Definition BaseRow_valuescollection (values : option PyObject) (astuple : bool)
    : PyResult PyObject :=
  match values with
  | None => PyErr_SetString PyExc_SystemError "null argument to internal routine"
  | Some values => if astuple then PySequence_Tuple values else PySequence_List values
  end.

Definition BaseRow_values_impl : M BaseRow PyObject :=
  fun self => (BaseRow_valuescollection (row self) false, self).

(** [PyObject_Hash] reads the type of its argument. *)
Definition BaseRow_hash `{PyRuntime} : M BaseRow Z :=
  (r <- deref row ;; lift (PyObject_Hash r))%py.

(** The iterator is a new object; it is given by the items it will yield. *)
Definition PyObject_GetIter (o : PyObject) : PyResult (list PyObject) :=
  match iter_items o with
  | Some items => Ok items
  | None => PyErr_SetString PyExc_TypeError "object is not iterable"
  end.

Definition BaseRow_iter : M BaseRow (list PyObject) :=
  (values <- (fun self => (BaseRow_valuescollection (row self) true, self)) ;;
   lift (PyObject_GetIter values))%py.

Definition BaseRow_length : M BaseRow Z :=
  fun self => (PySequence_Length (row self), self).

Definition BaseRow_getitem (i : Z) : M BaseRow PyObject :=
  (r <- deref row ;; lift (PyTuple_GetItem r i))%py.

Definition ambiguous_msg (cstr_key : string) : string :=
  "Ambiguous column name '" +:+ fmt_s200 cstr_key +:+
  "' in result set column descriptions".

Definition null_error {A} : PyResult A :=
  PyErr_SetString PyExc_SystemError "null argument to internal routine".

(** The first part of [BaseRow_getitem_by_object]: the record of the key,
    from the keymap or from [self->parent._key_fallback(key)]. *)
Definition lookup_record `{PyRuntime} (key : PyObject) : M BaseRow PyObject :=
  (km <- deref keymap ;;
   match PyDict_GetItem km key with
   | Some record => ret record
   | None =>
       fun self =>
         (match parent self with
          | Some p => PyObject_CallMethodArgs p "_key_fallback" (call_args_O key)
          | None => null_error
          end, self)
   end)%py.

Definition BaseRow_getitem_by_object `{PyRuntime} (key : PyObject) : M BaseRow PyObject :=
  (record <- lookup_record key ;;
   indexobject <- lift (PyTuple_GetItem record 0) ;;
   match indexobject with
   | Py_None =>
       exc_module <- lift (PyImport_ImportModule "sqlalchemy.exc") ;;
       exception <- lift (PyObject_GetAttrString exc_module "InvalidRequestError") ;;
       cstr_obj <- lift (PyTuple_GetItem record 2) ;;
       cstr_obj <- lift (PyObject_Str cstr_obj) ;;
       bytes <- lift (PyUnicode_AsASCIIString cstr_obj) ;;
       lift (PyErr_SetString exception (ambiguous_msg bytes))
   | _ =>
       index <- lift (PyLong_AsLong indexobject) ;;
       BaseRow_getitem index
   end)%py.

Definition BaseRow_subscript_impl `{PyRuntime} (key : PyObject) (asmapping : bool)
    : M BaseRow PyObject :=
  if PyLong_CheckExact key then
    (index <- lift (PyLong_AsLong key) ;;
     if (index <? 0)%Z then
       fun self =>
         let len := match BaseRow_length self with (Ok n, _) => n | _ => (-1)%Z end in
         BaseRow_getitem (index + len) self
     else BaseRow_getitem index)%py
  else if PySlice_Check key then
    (values <- (fun self =>
                  (match row self with
                   | Some r => PyObject_GetItem r key
                   | None => null_error
                   end, self)) ;;
     lift (BaseRow_valuescollection (Some values) true))%py
  else BaseRow_getitem_by_object key.

Definition BaseRow_subscript `{PyRuntime} (key : PyObject) : M BaseRow PyObject :=
  BaseRow_subscript_impl key false.

Definition BaseRow_subscript_mapping `{PyRuntime} (key : PyObject) : M BaseRow PyObject :=
  BaseRow_subscript_impl key true.

Definition attribute_msg (name_bytes : string) : string :=
  "Could not locate column in row for column '" +:+ fmt_s200 name_bytes +:+ "'".

(** [BaseRow_getattro(self, name)]; the attribute name is a [str].  The
    [AttributeError] of the generic lookup is cleared before the keyed
    lookup; the [KeyError] of the keyed lookup is not cleared before the
    name is encoded. *)
Definition BaseRow_getattro `{PyRuntime} (name : string) : M BaseRow PyObject :=
  fun self =>
    match PyObject_GenericGetAttr self name with
    | Ok tmp => (Ok tmp, self)
    | Fault => (Fault, self)
    | Err e =>
        if negb (PyErr_ExceptionMatches e PyExc_AttributeError) then (Err e, self)
        else
          match BaseRow_subscript_mapping (PyUnicode name) self with
          | (Err e', self') =>
              if PyErr_ExceptionMatches e' PyExc_KeyError then
                match PyUnicode_AsASCIIString_pending name with
                | Ok err_bytes =>
                    (PyErr_SetString PyExc_AttributeError (attribute_msg err_bytes), self')
                | Err e'' => (Err e'', self')
                | Fault => (Fault, self')
                end
              else (Err e', self')
          | tmp => tmp
          end
    end.

(** [PyObject_GetAttrString(self, name)] goes through [tp_getattro]. *)
Definition BaseRow_reduce `{PyRuntime} : M BaseRow PyObject :=
  (method <- BaseRow_getattro "__getstate__" ;;
   state <- lift (PyObject_CallObject method []) ;;
   module <- lift (PyImport_ImportModule "sqlalchemy.engine.result") ;;
   reconstructor <- lift (PyObject_GetAttrString module "rowproxy_reconstructor") ;;
   cls <- BaseRow_getattro "__class__" ;;
   ret (PyTuple [reconstructor; PyTuple [cls; state]]))%py.

(** *** Getters and setters of [_parent], [_data] and [_keymap] *)

Definition BaseRow_getparent : M BaseRow PyObject := deref parent.

Definition BaseRow_setparent `{PyRuntime} (value : option PyObject) : M BaseRow unit :=
  match value with
  | None => lift (PyErr_SetString PyExc_TypeError "Cannot delete the 'parent' attribute")
  | Some value =>
      (module <- lift (PyImport_ImportModule "sqlalchemy.engine.result") ;;
       cls <- lift (PyObject_GetAttrString module "ResultMetaData") ;;
       if negb (PyObject_IsInstance value cls =? 1)%Z then
         lift (PyErr_SetString PyExc_TypeError
                 "The 'parent' attribute value must be an instance of ResultMetaData")
       else set_parent value)%py
  end.

Definition BaseRow_getrow : M BaseRow PyObject := deref row.

Definition BaseRow_setrow (value : option PyObject) : M BaseRow unit :=
  match value with
  | None => lift (PyErr_SetString PyExc_TypeError "Cannot delete the 'row' attribute")
  | Some value =>
      if negb (PySequence_Check value) then
        lift (PyErr_SetString PyExc_TypeError
                "The 'row' attribute value must be a sequence")
      else set_row value
  end.

Definition BaseRow_getkeymap : M BaseRow PyObject := deref keymap.

Definition BaseRow_setkeymap (value : option PyObject) : M BaseRow unit :=
  match value with
  | None => lift (PyErr_SetString PyExc_TypeError "Cannot delete the 'keymap' attribute")
  | Some value =>
      if negb (PyDict_CheckExact value) then
        lift (PyErr_SetString PyExc_TypeError
                "The 'keymap' attribute value must be a dict")
      else set_keymap value
  end.

(** ** tuplegetter *)

Record tuplegetterobject := mktuplegetter {
  nitems : nat;
  item : PyObject
}.

(** [tuplegetter_new(type, args, kwds)]: [args] is the tuple of the
    positional arguments, [kwds] the keyword arguments ([[]] for [NULL]
    and for an empty dict). *)
Definition tuplegetter_new (args : list PyObject) (kwds : list (PyObject * PyObject))
    : PyResult tuplegetterobject :=
  match kwds with
  | _ :: _ =>
      PyErr_SetString PyExc_TypeError "tuplegetter() takes no keyword arguments"
  | [] => Ok (mktuplegetter (length args) (PyTuple args))
  end.

Section tuplegetter_call.
(** The row is "normally a BaseRow subclass but we are not doing strict
    checking": any object of state [R] whose method
    [_get_by_key_impl_mapping] takes an argument vector. *)
Context {R : Type} (get_by_key_impl_mapping : list PyObject -> M R PyObject).

(** The loop [for (i=0 ; i < nitems ; i++)], entered with
    [remaining = nitems - i]. *)
Fixpoint tuplegetter_call_loop (remaining i : nat) (items : list PyObject)
    (result : list (option PyObject)) : M R (list (option PyObject)) :=
  match remaining with
  | O => ret result
  | S remaining =>
      match items !! i, result !! i with
      | Some item, Some _ =>
          (val <- get_by_key_impl_mapping (call_args_O item) ;;
           tuplegetter_call_loop remaining (S i) items (<[i := Some val]> result))%py
      | _, _ => lift Fault
      end
  end.

(** [tuplegetter_call(tg, (row,), kw)] as an action on the row. *)
Definition tuplegetter_call_on (tg : tuplegetterobject) : M R PyObject :=
  match item tg with
  | PyTuple items =>
      (result <- tuplegetter_call_loop (nitems tg) 0 items (PyTuple_New (nitems tg)) ;;
       lift (PyTuple_finish result))%py
  | _ => lift Fault
  end.
End tuplegetter_call.

(** The entry of [BaseRow_methods]:
    [{"_get_by_key_impl_mapping", BaseRow_subscript_mapping, METH_O}]. *)
Definition BaseRow_get_by_key_impl_mapping `{PyRuntime} : list PyObject -> M BaseRow PyObject :=
  call_METH_O "BaseRow._get_by_key_impl_mapping" BaseRow_subscript_mapping.

(** [tuplegetter_call] on a row whose methods are those of [BaseRow]. *)
Definition tuplegetter_call `{PyRuntime} (tg : tuplegetterobject) : M BaseRow PyObject :=
  tuplegetter_call_on BaseRow_get_by_key_impl_mapping tg.

Definition tuplegetter_reduce (type : PyObject) (tg : tuplegetterobject) : PyObject :=
  PyTuple [type; item tg].

(** ** Definitions that follow the specification *)

(** Modelled from the spec: the comparison of two rows.  [BaseRowType]
    leaves [tp_richcompare] empty; the comparison of rows belongs to the
    Python class [Row] built on [BaseRow], which is not part of the C
    file.  The specification gives it as "structural equality of value
    tuples only". *)
Definition Row_equals (r1 r2 : BaseRow) : bool :=
  match row r1, row r2 with
  | Some v1, Some v2 => PyObject_eqb v1 v2
  | _, _ => false
  end.

(** The values a row would hold according to the specification: position
    by position, [processors[i](rawValues[i])] when the processor is
    present, else the raw value; the first failure ends the construction. *)
Definition apply_processor (func : option processor) (value : PyObject)
    : PyResult PyObject :=
  match func with
  | Some f => f value
  | None => Ok value
  end.

Fixpoint processed_values (processors : list (option processor)) (rawValues : list PyObject)
    : PyResult (list PyObject) :=
  match processors, rawValues with
  | func :: processors, value :: rawValues =>
      match apply_processor func value with
      | Ok v =>
          match processed_values processors rawValues with
          | Ok vs => Ok (v :: vs)
          | Err e => Err e
          | Fault => Fault
          end
      | Err e => Err e
      | Fault => Fault
      end
  | _, _ => Ok []
  end.

(** The projection according to the specification: the values of
    [get_by_key(k)] for each key in order, ending at the first failure. *)
Fixpoint project_keys {R} (get_by_key : PyObject -> M R PyObject) (keys : list PyObject)
    : M R (list PyObject) :=
  match keys with
  | [] => ret []
  | k :: keys =>
      (v <- get_by_key k ;;
       vs <- project_keys get_by_key keys ;;
       ret (v :: vs))%py
  end.

(** Whether [needle] occurs in [s]. *)
Fixpoint string_contains (needle s : string) : bool :=
  String.prefix needle s ||
  match s with
  | EmptyString => false
  | String _ s' => string_contains needle s'
  end.

(** ** A small interpreter for the examples *)

Module Fixture.

Definition InvalidRequestError : PyObject :=
  PyType "InvalidRequestError" ["SQLAlchemyError"; "Exception"; "BaseException"].

(** [class NoSuchColumnError(KeyError, InvalidRequestError)] *)
Definition NoSuchColumnError : PyObject :=
  PyType "NoSuchColumnError"
    ["KeyError"; "LookupError"; "InvalidRequestError"; "SQLAlchemyError";
     "Exception"; "BaseException"].

Definition ImportError : PyObject := builtin_exc "ImportError" [].
Definition exc_module : PyObject := PyInstance "module" 1.
Definition result_module : PyObject := PyInstance "module" 2.
Definition ResultMetaData : PyObject := PyType "ResultMetaData" [].
Definition rowproxy_reconstructor : PyObject := PyInstance "function" 3.
Definition Row : PyObject := PyType "Row" ["BaseRow"].
Definition metadata : PyObject := PyInstance "ResultMetaData" 10.
Definition other_metadata : PyObject := PyInstance "ResultMetaData" 11.

Fixpoint hash_value (o : PyObject) : Z :=
  match o with
  | PyLong n => n
  | PyUnicode s => Z.of_nat (String.length s)
  | PyTuple items => fold_right (fun x acc => (hash_value x + 31 * acc)%Z) 7%Z items
  | PyInstance _ id => Z.of_nat id
  | _ => 0%Z
  end.

(** The state a row is pickled to: a dict that may hold [_parent],
    [_data] and [_keymap]; [__setstate__] assigns those that are there,
    [_data] and [_keymap] through the setters of the type. *)
Definition assign (entries : list (PyObject * PyObject)) (name : string)
    (setter : option PyObject -> M BaseRow unit) : M BaseRow unit :=
  match dict_find entries (PyUnicode name) with
  | Some v => setter (Some v)
  | None => ret tt
  end.

Definition setstate (args : list PyObject) : M BaseRow PyObject :=
  match args with
  | [PyDict entries] =>
      (assign entries "_parent" (from_option set_parent (ret tt)) ;;
       assign entries "_data" BaseRow_setrow ;;
       assign entries "_keymap" BaseRow_setkeymap ;;
       ret Py_None)%py
  | _ => lift (PyErr_SetString PyExc_TypeError "__setstate__() takes one dict")
  end.

Definition runtime : PyRuntime := {|
  PyObject_Hash o :=
    if hashable o then Ok (hash_value o)
    else PyErr_SetString PyExc_TypeError "unhashable type";
  tp_str o :=
    match o with
    | PyLong n => Ok (pretty n)
    | Py_None => Ok "None"
    | _ => PyErr_SetString PyExc_TypeError "__str__ returned non-string"
    end;
  PyObject_GetItem o key :=
    PyErr_SetString PyExc_TypeError "object is not subscriptable";
  PyImport_ImportModule name :=
    if String.eqb name "sqlalchemy.exc" then Ok exc_module
    else if String.eqb name "sqlalchemy.engine.result" then Ok result_module
    else PyErr_SetString ImportError "No module named";
  PyObject_GetAttrString o name :=
    if PyObject_eqb o exc_module && String.eqb name "InvalidRequestError"
    then Ok InvalidRequestError
    else if PyObject_eqb o result_module && String.eqb name "ResultMetaData"
    then Ok ResultMetaData
    else if PyObject_eqb o result_module && String.eqb name "rowproxy_reconstructor"
    then Ok rowproxy_reconstructor
    else PyErr_SetString PyExc_AttributeError "no such attribute";
  PyObject_IsInstance value cls :=
    match value, cls with
    | PyInstance c _, PyType n _ => if String.eqb c n then 1%Z else 0%Z
    | _, _ => 0%Z
    end;
  PyObject_CallMethodArgs o name args :=
    PyErr_SetString NoSuchColumnError "Could not locate column in row";
  PyObject_GenericGetAttr self name :=
    if String.eqb name "__class__" then Ok (ob_type self)
    else PyErr_SetString PyExc_AttributeError "object has no attribute";
  PyObject_CallObject f args :=
    PyErr_SetString PyExc_TypeError "object is not callable";
  row_new cls args := Ok (BaseRow_new cls);
  row_setstate := setstate
|}.

(** A processor: upper-case a [str] of lower-case ASCII letters. *)
Definition upper_char (c : Ascii.ascii) : Ascii.ascii :=
  let n := Ascii.N_of_ascii c in
  if ((97 <=? n) && (n <=? 122))%N then Ascii.ascii_of_N (n - 32) else c.

Fixpoint upper (s : string) : string :=
  match s with
  | EmptyString => EmptyString
  | String c s' => String (upper_char c) (upper s')
  end.

Definition uppercase : processor := fun o =>
  match o with
  | PyUnicode s => Ok (PyUnicode (upper s))
  | _ => PyErr_SetString PyExc_TypeError "descriptor 'upper' requires a 'str' object"
  end.

Definition e_acute : string := String (Ascii.ascii_of_N 233) EmptyString.

(** Records are [(index, canonical key, text used in the diagnostic)]. *)
Definition keymap1 : PyObject :=
  PyDict [ (PyUnicode "x", PyTuple [PyLong 0; PyUnicode "x"; PyUnicode "x"]);
           (PyUnicode "y", PyTuple [Py_None; PyUnicode "y"; PyUnicode "ambiguous column y"]);
           (PyUnicode "z", PyTuple [PyLong 1; PyUnicode "z"; PyUnicode "z"]);
           (PyUnicode "xyz", PyTuple [Py_None; PyUnicode "xyz"; PyUnicode "dup"]);
           (PyUnicode "w", PyTuple [Py_None; PyUnicode "w"; PyUnicode e_acute]);
           (PyTuple [PyUnicode "x"; PyUnicode "z"],
            PyTuple [PyLong 1; PyUnicode "x,z"; PyUnicode "x,z"]);
           (PyTuple [PyLong 0], PyTuple [PyLong 1; PyUnicode "t"; PyUnicode "t"]) ].

Definition keymap2 : PyObject := PyDict [].

Definition row1 : BaseRow :=
  mkBaseRow Row (Some metadata) (Some (PyTuple [PyLong 10; PyLong 20])) (Some keymap1).

Definition row2 : BaseRow :=
  mkBaseRow Row (Some other_metadata) (Some (PyTuple [PyLong 10; PyLong 20])) (Some keymap2).

End Fixture.

(** ** Errors named in the statements *)

Definition index_error : PyErr :=
  mkPyErr PyExc_IndexError (PyUnicode "tuple index out of range").

(** ** More rows for the examples *)

Module Rows.

(** A keymap whose records point outside a row of two values. *)
Definition keymap3 : PyObject :=
  PyDict [ (PyUnicode "last", PyTuple [PyLong (-1); PyUnicode "last"; PyUnicode "last"]);
           (PyUnicode "far", PyTuple [PyLong 2; PyUnicode "far"; PyUnicode "far"]);
           (PyUnicode "a", PyTuple [PyLong 0; PyUnicode "a"; PyUnicode "a"]) ].

Definition row3 : BaseRow :=
  mkBaseRow Fixture.Row (Some Fixture.metadata) (Some (PyTuple [PyLong 10; PyLong 20]))
    (Some keymap3).

(** The state of a pickled row, as [Fixture.setstate] reads it. *)
Definition state1 : PyObject :=
  PyDict [ (PyUnicode "_parent", Fixture.metadata);
           (PyUnicode "_data", PyTuple [PyLong 10; PyLong 20]);
           (PyUnicode "_keymap", Fixture.keymap1) ].

(** [Fixture.runtime] with slicing of tuples and lists by
    [slice(start, stop)], for [0 <= start <= stop]. *)
Definition slice_items (items : list PyObject) (key : PyObject) : option (list PyObject) :=
  match key with
  | PySlice (PyLong start) (PyLong stop) Py_None =>
      if ((0 <=? start) && (start <=? stop))%Z
      then Some (take (Z.to_nat (stop - start)) (drop (Z.to_nat start) items))
      else None
  | _ => None
  end.

Definition slicing_runtime : PyRuntime := {|
  PyObject_Hash := @PyObject_Hash Fixture.runtime;
  tp_str := @tp_str Fixture.runtime;
  PyObject_GetItem o key :=
    match o with
    | PyTuple items =>
        match slice_items items key with
        | Some l => Ok (PyTuple l)
        | None => PyErr_SetString PyExc_TypeError "unsupported index"
        end
    | PyList items =>
        match slice_items items key with
        | Some l => Ok (PyList l)
        | None => PyErr_SetString PyExc_TypeError "unsupported index"
        end
    | _ => PyErr_SetString PyExc_TypeError "object is not subscriptable"
    end;
  PyImport_ImportModule := @PyImport_ImportModule Fixture.runtime;
  PyObject_GetAttrString := @PyObject_GetAttrString Fixture.runtime;
  PyObject_IsInstance := @PyObject_IsInstance Fixture.runtime;
  PyObject_CallMethodArgs := @PyObject_CallMethodArgs Fixture.runtime;
  PyObject_GenericGetAttr := @PyObject_GenericGetAttr Fixture.runtime;
  PyObject_CallObject := @PyObject_CallObject Fixture.runtime;
  row_new := @row_new Fixture.runtime;
  row_setstate := @row_setstate Fixture.runtime
|}.

(** A keymap with an ambiguous key that is not ASCII and whose record
    carries an ASCII text. *)
Definition keymap5 : PyObject :=
  PyDict [ (PyUnicode Fixture.e_acute,
            PyTuple [Py_None; PyUnicode Fixture.e_acute; PyUnicode "dup"]) ].

Definition row5 : BaseRow :=
  mkBaseRow Fixture.Row (Some Fixture.metadata) (Some (PyTuple [PyLong 10; PyLong 20]))
    (Some keymap5).

Definition row4 : BaseRow :=
  mkBaseRow Fixture.Row (Some Fixture.metadata)
    (Some (PyTuple [PyLong 10; PyLong 20; PyLong 30])) (Some Fixture.keymap1).

End Rows.

Definition bad_internal_call : PyErr :=
  mkPyErr PyExc_SystemError (PyUnicode "bad argument to internal function").

Definition null_argument : PyErr :=
  mkPyErr PyExc_SystemError (PyUnicode "null argument to internal routine").

(** * Properties *)

(** ** The comparison of objects *)

Lemma list_eqb_eq {A} (eqb : A -> A -> bool) (l1 : list A) :
  Forall (fun x => forall y, eqb x y = true <-> x = y) l1 ->
  forall l2, list_eqb eqb l1 l2 = true <-> l1 = l2.
Proof.
  induction 1 as [|x l1 Hx _ IH]; intros [|y l2]; simpl; try (split; congruence).
  rewrite andb_true_iff, Hx, IH. split; [intros [-> ->]; reflexivity | intros [= -> ->]; auto].
Qed.

Lemma string_list_eqb_eq (l1 l2 : list string) :
  list_eqb String.eqb l1 l2 = true <-> l1 = l2.
Proof.
  apply list_eqb_eq, Forall_forall. intros x _ y. apply String.eqb_eq.
Qed.

Lemma PyObject_eqb_eq (a b : PyObject) : PyObject_eqb a b = true <-> a = b.
Proof.
  revert b. induction a as [|n|s|items IH|items IH|entries IH|a1 a2 a3 IH1 IH2 IH3|name mro|cls id]
    using PyObject_ind; intros b; destruct b; simpl; try (split; congruence).
  - rewrite Z.eqb_eq. split; congruence.
  - rewrite String.eqb_eq. split; congruence.
  - pose proof (list_eqb_eq _ _ IH items0) as X.
    split; [intros H; apply X in H; congruence | intros [= ->]; apply X; reflexivity].
  - pose proof (list_eqb_eq _ _ IH items0) as X.
    split; [intros H; apply X in H; congruence | intros [= ->]; apply X; reflexivity].
  - revert entries0. induction IH as [|[k v] l [Hk Hv] _ IHl]; intros [|[k' v'] l'];
      try (split; congruence).
    rewrite !andb_true_iff. simpl in Hk, Hv. rewrite Hk, Hv.
    specialize (IHl l'). split.
    + intros [[-> ->] H]. apply IHl in H. congruence.
    + intros [= -> -> ->]. split; [auto|]. apply IHl. reflexivity.
  - rewrite !andb_true_iff. split.
    + intros [[H1 H2] H3]. apply IH1 in H1. apply IH2 in H2. apply IH3 in H3. congruence.
    + intros [= -> -> ->]. repeat split; [apply IH1|apply IH2|apply IH3]; reflexivity.
  - rewrite andb_true_iff, String.eqb_eq, string_list_eqb_eq.
    split; [intros [-> ->]|intros [= -> ->]]; auto.
  - rewrite andb_true_iff, String.eqb_eq, Nat.eqb_eq.
    split; [intros [-> ->]|intros [= -> ->]]; auto.
Qed.

Lemma PyObject_eqb_refl (a : PyObject) : PyObject_eqb a a = true.
Proof. apply PyObject_eqb_eq. reflexivity. Qed.

(** ** Construction of a row *)

Lemma PyTuple_finish_Some (items : list PyObject) :
  PyTuple_finish (Some <$> items) = Ok (PyTuple items).
Proof.
  unfold PyTuple_finish. rewrite (mapM_fmap_Some id Some items); [reflexivity|].
  intros x. reflexivity.
Qed.

(** The loop fills the slots from [i] on with the processed values of the
    columns from [i] on, and stops at the first processor that fails. *)
Lemma BaseRow_init_loop_processed (n : nat) :
  forall (i : nat) (values : list PyObject) (funcs : list (option processor))
         (done : list PyObject) (rest : list (option PyObject)),
    length done = i -> length rest = n ->
    length values = i + n -> length funcs = i + n ->
    BaseRow_init_loop n i values funcs ((Some <$> done) ++ rest) =
    match processed_values (drop i funcs) (drop i values) with
    | Ok vs => Ok (Some <$> (done ++ vs))
    | Err e => Err e
    | Fault => Fault
    end.
Proof.
  induction n as [|n IH]; intros i values funcs done rest Hdone Hrest Hvalues Hfuncs.
  - destruct rest; [|discriminate]. simpl.
    rewrite (drop_ge funcs i) by lia. simpl. rewrite !app_nil_r. reflexivity.
  - destruct rest as [|r rest]; [discriminate|]. simpl in Hrest.
    destruct (lookup_lt_is_Some_2 funcs i) as [func Hfunc]; [lia|].
    destruct (lookup_lt_is_Some_2 values i) as [value Hvalue]; [lia|].
    rewrite (drop_S _ _ _ Hfunc), (drop_S _ _ _ Hvalue).
    cbn [BaseRow_init_loop processed_values apply_processor].
    rewrite Hfunc, Hvalue.
    assert (Hslot : ((Some <$> done) ++ r :: rest) !! i = Some r).
    { rewrite lookup_app_r; rewrite length_fmap; [|lia].
      rewrite Hdone, Nat.sub_diag. reflexivity. }
    rewrite Hslot.
    assert (Hins : forall v, <[i := Some v]> ((Some <$> done) ++ r :: rest)
                             = (Some <$> (done ++ [v])) ++ rest).
    { intros v. rewrite insert_app_r_alt; rewrite length_fmap; [|lia].
      rewrite Hdone, Nat.sub_diag, fmap_app, <- app_assoc. reflexivity. }
    destruct func as [f|]; cbn [apply_processor].
    + destruct (f value) as [pv|e|]; [|reflexivity|reflexivity].
      rewrite Hins, IH; [|rewrite length_app; simpl; lia|lia|lia|lia].
      destruct (processed_values _ _); [|reflexivity|reflexivity].
      rewrite <- app_assoc. reflexivity.
    + rewrite Hins, IH; [|rewrite length_app; simpl; lia|lia|lia|lia].
      destruct (processed_values _ _); [|reflexivity|reflexivity].
      rewrite <- app_assoc. reflexivity.
Qed.

(** [BaseRow_init] on sequences of equal length. *)
Lemma BaseRow_init_equal_lengths (parent' keymap' row' : PyObject)
    (processors : list (option processor)) (rawValues : list PyObject) (self : BaseRow) :
  PySequence_Fast row' "row must be a sequence" = Ok rawValues ->
  length rawValues = length processors ->
  BaseRow_init parent' processors keymap' row' self =
  match processed_values processors rawValues with
  | Ok values =>
      if PyDict_CheckExact keymap' then
        (Ok tt, mkBaseRow (ob_type self) (Some parent') (Some (PyTuple values)) (Some keymap'))
      else
        (PyErr_SetString PyExc_TypeError "keymap must be a dict",
         mkBaseRow (ob_type self) (Some parent') (Some (PyTuple values)) (keymap self))
  | Err e => (Err e, mkBaseRow (ob_type self) (Some parent') (row self) (keymap self))
  | Fault => (Fault, mkBaseRow (ob_type self) (Some parent') (row self) (keymap self))
  end.
Proof.
  intros Hseq Hlen. unfold BaseRow_init, bind, set_parent, modify, lift. simpl.
  rewrite Hseq, Hlen, Z.eqb_refl. simpl.
  pose proof (BaseRow_init_loop_processed (length processors) 0 rawValues processors
                [] (PyTuple_New (length processors))) as Hloop.
  simpl in Hloop. rewrite !drop_0 in Hloop. rewrite Hloop; [|reflexivity|apply length_replicate|lia|lia].
  destruct (processed_values processors rawValues) as [values|e|]; [|reflexivity|reflexivity].
  rewrite PyTuple_finish_Some. unfold set_row, set_keymap, modify, ret. simpl.
  destruct (PyDict_CheckExact keymap'); reflexivity.
Qed.

Lemma processed_values_lookup (processors : list (option processor)) :
  forall (rawValues values : list PyObject),
    length rawValues = length processors ->
    processed_values processors rawValues = Ok values ->
    length values = length rawValues /\
    forall i func value,
      processors !! i = Some func -> rawValues !! i = Some value ->
      exists v, values !! i = Some v /\ apply_processor func value = Ok v.
Proof.
  induction processors as [|func0 processors IH]; intros [|value0 rawValues] values Hlen Hok;
    try discriminate.
  - injection Hok as <-. split; [reflexivity|]. intros i func value H. discriminate.
  - simpl in Hok. destruct (apply_processor func0 value0) as [v0| |] eqn:E0; try discriminate.
    destruct (processed_values processors rawValues) as [vs| |] eqn:E; try discriminate.
    injection Hok as <-. injection Hlen as Hlen.
    destruct (IH rawValues vs Hlen E) as [Hl Hi]. split; [simpl; lia|].
    intros [|i] func value Hf Hv; simpl in *.
    + injection Hf as <-. injection Hv as <-. eauto.
    + eauto.
Qed.

Lemma processed_values_all_ok (processors : list (option processor)) :
  forall (rawValues : list PyObject),
    (forall i func value,
       processors !! i = Some func -> rawValues !! i = Some value ->
       exists v, apply_processor func value = Ok v) ->
    exists values, processed_values processors rawValues = Ok values.
Proof.
  induction processors as [|func0 processors IH]; intros [|value0 rawValues] Hall;
    simpl; eauto.
  destruct (Hall 0 func0 value0 eq_refl eq_refl) as [v0 ->].
  destruct (IH rawValues) as [vs ->]; [|eauto].
  intros i func value Hf Hv. exact (Hall (S i) func value Hf Hv).
Qed.

Lemma processed_values_first_failure (processors : list (option processor)) :
  forall (rawValues : list PyObject) i func value e,
    processors !! i = Some func -> rawValues !! i = Some value ->
    apply_processor func value = Err e ->
    (forall j func' value',
       j < i -> processors !! j = Some func' -> rawValues !! j = Some value' ->
       exists v, apply_processor func' value' = Ok v) ->
    processed_values processors rawValues = Err e.
Proof.
  induction processors as [|func0 processors IH];
    intros [|value0 rawValues] [|i] func value e Hf Hv He Hbefore; try discriminate.
  - simpl in *. injection Hf as <-. injection Hv as <-. rewrite He. reflexivity.
  - simpl in *. destruct (Hbefore 0 func0 value0) as [v0 ->]; [lia|reflexivity|reflexivity|].
    rewrite (IH rawValues i func value e Hf Hv He); [reflexivity|].
    intros j func' value' Hj Hf' Hv'. apply (Hbefore (S j) func' value'); [lia|assumption|assumption].
Qed.

Lemma cast_int_small (x : Z) : (0 <= x <= INT_MAX)%Z -> cast_int x = x.
Proof.
  unfold cast_int, INT_MAX. intros Hx.
  rewrite Z.mod_small; lia.
Qed.

(** C1. For a processor list and a sequence of raw values of the same
    length (and a keymap that is a dict), constructing a row succeeds
    when every processor that is present succeeds, the value at each
    position [i] is [processors[i](rawValues[i])] when the processor is
    present and [rawValues[i]] itself when it is [None]; and when the
    processor at some position fails, all earlier ones having succeeded,
    construction fails with exactly that processor's error. *)
Theorem BaseRow_construct_values (type parent' keymap' row' : PyObject)
    (processors : list (option processor)) (rawValues : list PyObject) :
  PySequence_Fast row' "row must be a sequence" = Ok rawValues ->
  length rawValues = length processors ->
  PyDict_CheckExact keymap' = true ->
  ((forall i f value,
      processors !! i = Some (Some f) -> rawValues !! i = Some value ->
      exists v, f value = Ok v) ->
   exists values,
     BaseRow_call type parent' processors keymap' row' =
       Ok (mkBaseRow type (Some parent') (Some (PyTuple values)) (Some keymap')) /\
     length values = length rawValues /\
     forall i value,
       rawValues !! i = Some value ->
       (processors !! i = Some None -> values !! i = Some value) /\
       (forall f, processors !! i = Some (Some f) ->
                  exists v, values !! i = Some v /\ f value = Ok v)) /\
  (forall i f value e,
     processors !! i = Some (Some f) -> rawValues !! i = Some value ->
     f value = Err e ->
     (forall j f' value',
        j < i -> processors !! j = Some (Some f') -> rawValues !! j = Some value' ->
        exists v, f' value' = Ok v) ->
     BaseRow_call type parent' processors keymap' row' = Err e).
Proof.
  intros Hseq Hlen Hdict. unfold BaseRow_call.
  rewrite (BaseRow_init_equal_lengths _ _ _ _ _ _ Hseq Hlen), Hdict. split.
  - intros Hall.
    destruct (processed_values_all_ok processors rawValues) as [values Hvalues].
    { intros i [f|] value Hf Hv; simpl; eauto. }
    rewrite Hvalues. exists values.
    destruct (processed_values_lookup _ _ _ Hlen Hvalues) as [Hl Hi].
    split; [reflexivity|]. split; [assumption|].
    intros i value Hv. split.
    + intros Hf. destruct (Hi i None value Hf Hv) as [v [Hv' Ha]].
      simpl in Ha. congruence.
    + intros f Hf. exact (Hi i (Some f) value Hf Hv).
  - intros i f value e Hf Hv He Hbefore.
    rewrite (processed_values_first_failure processors rawValues i (Some f) value e);
      [reflexivity|assumption|assumption|assumption|].
    intros j [f'|] value' Hj Hf' Hv'; simpl; eauto.
Qed.

Lemma BaseRow_construct_values_witness :
  PySequence_Fast (PyList [PyLong 1; PyUnicode "a"]) "row must be a sequence"
    = Ok [PyLong 1; PyUnicode "a"] /\
  length [PyLong 1; PyUnicode "a"] = length [None; Some Fixture.uppercase] /\
  PyDict_CheckExact Fixture.keymap1 = true /\
  exists values,
    BaseRow_call Fixture.Row Fixture.metadata [None; Some Fixture.uppercase]
      Fixture.keymap1 (PyList [PyLong 1; PyUnicode "a"]) =
      Ok (mkBaseRow Fixture.Row (Some Fixture.metadata) (Some (PyTuple values))
            (Some Fixture.keymap1)) /\
    values !! 0 = Some (PyLong 1) /\
    values !! 1 = Some (PyUnicode "A").
Proof.
  split; [reflexivity|]. split; [reflexivity|]. split; [reflexivity|].
  destruct (BaseRow_construct_values Fixture.Row Fixture.metadata Fixture.keymap1
              (PyList [PyLong 1; PyUnicode "a"]) [None; Some Fixture.uppercase]
              [PyLong 1; PyUnicode "a"] eq_refl eq_refl eq_refl) as [Hok _].
  destruct Hok as [values [Hcall [_ Hi]]].
  - intros [|[|i]] f value Hf Hv; try discriminate.
    injection Hf as <-. injection Hv as <-. eexists. reflexivity.
  - exists values. split; [exact Hcall|]. split.
    + exact (proj1 (Hi 0 (PyLong 1) eq_refl) eq_refl).
    + destruct (proj2 (Hi 1 (PyUnicode "a") eq_refl) Fixture.uppercase eq_refl)
        as [v [Hv Hf]].
      injection Hf as <-. exact Hv.
Defined.

(** C5. For a processor list and a sequence of raw values of different
    lengths, constructing a row fails with [RuntimeError] (the arity
    mismatch), whose message carries both lengths as the [int]s that
    [%d] prints, which are the lengths themselves up to [INT_MAX]; the
    call returns no row, and [BaseRow_init] stores neither a value tuple
    nor a keymap. *)
Theorem BaseRow_construct_arity_mismatch (type parent' keymap' row' : PyObject)
    (processors : list (option processor)) (rawValues : list PyObject) :
  PySequence_Fast row' "row must be a sequence" = Ok rawValues ->
  length rawValues <> length processors ->
  BaseRow_call type parent' processors keymap' row' =
    Err (mkPyErr PyExc_RuntimeError
           (PyUnicode (arity_msg (Z.of_nat (length rawValues))
                                 (Z.of_nat (length processors))))) /\
  (forall self,
     outcome (BaseRow_init parent' processors keymap' row' self) =
       Err (mkPyErr PyExc_RuntimeError
              (PyUnicode (arity_msg (Z.of_nat (length rawValues))
                                    (Z.of_nat (length processors))))) /\
     row (final (BaseRow_init parent' processors keymap' row' self)) = row self /\
     keymap (final (BaseRow_init parent' processors keymap' row' self)) = keymap self) /\
  ((Z.of_nat (length rawValues) <= INT_MAX)%Z ->
   (Z.of_nat (length processors) <= INT_MAX)%Z ->
   arity_msg (Z.of_nat (length rawValues)) (Z.of_nat (length processors)) =
     "number of values in row (" +:+ pretty (Z.of_nat (length rawValues)) +:+
     ") differ from number of column processors (" +:+
     pretty (Z.of_nat (length processors)) +:+ ")").
Proof.
  intros Hseq Hne.
  assert (Hinit : forall self,
             BaseRow_init parent' processors keymap' row' self =
               (Err (mkPyErr PyExc_RuntimeError
                       (PyUnicode (arity_msg (Z.of_nat (length rawValues))
                                             (Z.of_nat (length processors))))),
                mkBaseRow (ob_type self) (Some parent') (row self) (keymap self))).
  { intros self. unfold BaseRow_init, bind, set_parent, modify, lift. simpl.
    rewrite Hseq.
    destruct (Z.eqb_spec (Z.of_nat (length rawValues)) (Z.of_nat (length processors)))
      as [Heq|_]; [lia|]. reflexivity. }
  split; [|split].
  - unfold BaseRow_call. rewrite Hinit. reflexivity.
  - intros self. rewrite Hinit. repeat split.
  - intros Hn Hm. unfold arity_msg, fmt_d.
    rewrite !cast_int_small by lia. reflexivity.
Qed.

Lemma BaseRow_construct_arity_mismatch_witness :
  PySequence_Fast (PyList [PyLong 1; PyLong 2]) "row must be a sequence"
    = Ok [PyLong 1; PyLong 2] /\
  length [PyLong 1; PyLong 2] <> length [@None processor] /\
  BaseRow_call Fixture.Row Fixture.metadata [None] Fixture.keymap1
    (PyList [PyLong 1; PyLong 2]) =
    Err (mkPyErr PyExc_RuntimeError
           (PyUnicode
              "number of values in row (2) differ from number of column processors (1)")).
Proof.
  split; [reflexivity|]. split; [discriminate|].
  exact (proj1 (BaseRow_construct_arity_mismatch Fixture.Row Fixture.metadata
                  Fixture.keymap1 (PyList [PyLong 1; PyLong 2]) [None]
                  [PyLong 1; PyLong 2] eq_refl ltac:(discriminate))).
Defined.

(** ** Reading a row leaves the struct as it is *)

Section frame.
Context `{RT : PyRuntime}.

Lemma deref_final (f : BaseRow -> option PyObject) (self : BaseRow) :
  final (deref f self) = self.
Proof. reflexivity. Qed.

Lemma lift_final {A} (r : PyResult A) (self : BaseRow) : final (lift r self) = self.
Proof. reflexivity. Qed.

(** An action that keeps the struct, followed by actions that keep it,
    keeps it. *)
Lemma bind_final {A B} (m : M BaseRow A) (k : A -> M BaseRow B) (self : BaseRow) :
  final (m self) = self ->
  (forall a, final (k a self) = self) ->
  final (bind m k self) = self.
Proof.
  unfold bind, final. intros Hm Hk.
  destruct (m self) as [[a|e|] s']; simpl in *; subst; auto.
Qed.

Lemma BaseRow_getitem_final (i : Z) (self : BaseRow) :
  final (BaseRow_getitem i self) = self.
Proof. apply bind_final; [apply deref_final|]. intros r. apply lift_final. Qed.

Lemma lookup_record_final (key : PyObject) (self : BaseRow) :
  final (lookup_record key self) = self.
Proof.
  apply bind_final; [apply deref_final|]. intros km.
  destruct (PyDict_GetItem km key); reflexivity.
Qed.

Lemma BaseRow_getitem_by_object_final (key : PyObject) (self : BaseRow) :
  final (BaseRow_getitem_by_object key self) = self.
Proof.
  apply bind_final; [apply lookup_record_final|]. intros record.
  apply bind_final; [apply lift_final|]. intros indexobject.
  destruct indexobject;
    try (apply bind_final; [apply lift_final|]; intros index; apply BaseRow_getitem_final).
  repeat (apply bind_final; [apply lift_final|]; intros ?). apply lift_final.
Qed.

Lemma BaseRow_subscript_impl_final (key : PyObject) (asmapping : bool) (self : BaseRow) :
  final (BaseRow_subscript_impl key asmapping self) = self.
Proof.
  unfold BaseRow_subscript_impl.
  destruct (PyLong_CheckExact key).
  - apply bind_final; [apply lift_final|]. intros index.
    destruct (index <? 0)%Z; apply BaseRow_getitem_final.
  - destruct (PySlice_Check key).
    + apply bind_final; [reflexivity|]. intros values. apply lift_final.
    + apply BaseRow_getitem_by_object_final.
Qed.

Lemma BaseRow_getattro_final (name : string) (self : BaseRow) :
  final (BaseRow_getattro name self) = self.
Proof.
  unfold BaseRow_getattro.
  destruct (PyObject_GenericGetAttr self name) as [tmp|e|]; try reflexivity.
  destruct (negb _); [reflexivity|].
  pose proof (BaseRow_subscript_impl_final (PyUnicode name) true self) as Hsub.
  unfold BaseRow_subscript_mapping.
  destruct (BaseRow_subscript_impl (PyUnicode name) true self) as [[v|e'|] s']; simpl in Hsub;
    subst; try reflexivity.
  destruct (PyErr_ExceptionMatches e' PyExc_KeyError); [|reflexivity].
  destruct (PyUnicode_AsASCIIString_pending name); reflexivity.
Qed.

Lemma BaseRow_reduce_final (self : BaseRow) : final (BaseRow_reduce self) = self.
Proof.
  apply bind_final; [apply BaseRow_getattro_final|]. intros method.
  repeat (apply bind_final; [apply lift_final|]; intros ?).
  apply bind_final; [apply BaseRow_getattro_final|]. intros cls. reflexivity.
Qed.

Lemma BaseRow_get_by_key_impl_mapping_final (args : list PyObject) (self : BaseRow) :
  final (BaseRow_get_by_key_impl_mapping args self) = self.
Proof.
  unfold BaseRow_get_by_key_impl_mapping, call_METH_O.
  destruct args as [|arg [|]]; try reflexivity.
  apply BaseRow_subscript_impl_final.
Qed.

End frame.

(** ** The projection loop *)

Section tuplegetter_loop.
Context {R : Type} (meth : list PyObject -> M R PyObject).

(** When the method keeps the state of the row, the loop is the
    sequence of the calls for the keys from [i] on. *)
Lemma tuplegetter_call_loop_project (row0 : R) (n : nat) :
  (forall args, final (meth args row0) = row0) ->
  forall (i : nat) (items : list PyObject) (done : list PyObject)
         (rest : list (option PyObject)),
    length done = i -> length rest = n -> length items = i + n ->
    tuplegetter_call_loop meth n i items ((Some <$> done) ++ rest) row0 =
    match project_keys (fun k => meth (call_args_O k)) (drop i items) row0 with
    | (Ok vs, _) => (Ok (Some <$> (done ++ vs)), row0)
    | (Err e, _) => (Err e, row0)
    | (Fault, _) => (Fault, row0)
    end.
Proof.
  intros Hframe. induction n as [|n IH]; intros i items done rest Hdone Hrest Hitems.
  - destruct rest; [|discriminate]. simpl.
    rewrite (drop_ge items i) by lia. simpl. rewrite !app_nil_r. reflexivity.
  - destruct rest as [|r rest]; [discriminate|]. simpl in Hrest.
    destruct (lookup_lt_is_Some_2 items i) as [item Hitem]; [lia|].
    rewrite (drop_S _ _ _ Hitem).
    cbn [tuplegetter_call_loop project_keys]. rewrite Hitem.
    assert (Hslot : ((Some <$> done) ++ r :: rest) !! i = Some r).
    { rewrite lookup_app_r; rewrite length_fmap; [|lia].
      rewrite Hdone, Nat.sub_diag. reflexivity. }
    rewrite Hslot. unfold bind.
    pose proof (Hframe (call_args_O item)) as Hm. unfold final in Hm.
    destruct (meth (call_args_O item) row0) as [[val|e|] s']; simpl in Hm; subst s';
      [|reflexivity|reflexivity].
    rewrite insert_app_r_alt; rewrite length_fmap; [|lia].
    rewrite Hdone, Nat.sub_diag. cbn [insert list_insert].
    replace ((Some <$> done) ++ Some val :: rest)
      with ((Some <$> (done ++ [val])) ++ rest)
      by (rewrite fmap_app, <- app_assoc; reflexivity).
    rewrite IH; [|rewrite length_app; simpl; lia|lia|lia].
    unfold ret.
    destruct (project_keys _ (drop (S i) items) row0) as [[vs|e|] s'];
      [|reflexivity|reflexivity].
    rewrite <- app_assoc. reflexivity.
Qed.

Lemma tuplegetter_call_on_project (row0 : R) (keys : list PyObject) :
  (forall args, final (meth args row0) = row0) ->
  tuplegetter_call_on meth (mktuplegetter (length keys) (PyTuple keys)) row0 =
  match project_keys (fun k => meth (call_args_O k)) keys row0 with
  | (Ok vs, _) => (Ok (PyTuple vs), row0)
  | (Err e, _) => (Err e, row0)
  | (Fault, _) => (Fault, row0)
  end.
Proof.
  intros Hframe. unfold tuplegetter_call_on. simpl. unfold bind at 1.
  pose proof (tuplegetter_call_loop_project row0 (length keys) Hframe 0 keys []
                (PyTuple_New (length keys)) eq_refl) as Hloop.
  simpl in Hloop. rewrite drop_0 in Hloop.
  rewrite Hloop; [|apply length_replicate|reflexivity].
  destruct (project_keys _ keys row0) as [[vs|e|] s']; [|reflexivity|reflexivity].
  unfold lift. rewrite PyTuple_finish_Some. reflexivity.
Qed.

End tuplegetter_loop.

(** ** Equality and hash *)

(** C2. Two rows that hold the same value sequence are equal and have the
    same hash (or fail to hash in the same way), whatever their parent
    and keymap; rows are equal exactly when their value sequences are.
    The hash is [BaseRow_hash] of the C file; the comparison is
    [Row_equals], taken from the specification. *)
Theorem Row_equal_values_equal_hash `{RT : PyRuntime} (r1 r2 : BaseRow)
    (values1 values2 : list PyObject) :
  row r1 = Some (PyTuple values1) ->
  row r2 = Some (PyTuple values2) ->
  (Row_equals r1 r2 = true <-> values1 = values2) /\
  (values1 = values2 -> outcome (BaseRow_hash r1) = outcome (BaseRow_hash r2)).
Proof.
  intros H1 H2. split.
  - unfold Row_equals. rewrite H1, H2, PyObject_eqb_eq. split; congruence.
  - intros ->. unfold BaseRow_hash, bind, deref, lift, outcome.
    rewrite H1, H2. reflexivity.
Qed.

Lemma Row_equal_values_equal_hash_witness :
  row Fixture.row1 = Some (PyTuple [PyLong 10; PyLong 20]) /\
  row Fixture.row2 = Some (PyTuple [PyLong 10; PyLong 20]) /\
  parent Fixture.row1 <> parent Fixture.row2 /\
  keymap Fixture.row1 <> keymap Fixture.row2 /\
  Row_equals Fixture.row1 Fixture.row2 = true /\
  outcome (@BaseRow_hash Fixture.runtime Fixture.row1) =
    outcome (@BaseRow_hash Fixture.runtime Fixture.row2).
Proof.
  pose proof (@Row_equal_values_equal_hash Fixture.runtime Fixture.row1 Fixture.row2
                [PyLong 10; PyLong 20] [PyLong 10; PyLong 20] eq_refl eq_refl)
    as [Heq Hhash].
  split; [reflexivity|]. split; [reflexivity|].
  split; [discriminate|]. split; [discriminate|].
  split; [exact (proj2 Heq eq_refl) | exact (Hhash eq_refl)].
Defined.

(** ** Keyed access *)

Section keyed_access.
Context `{RT : PyRuntime}.

(** [BaseRow_getitem_by_object] once the record of the key is known. *)
Lemma BaseRow_getitem_by_object_record (self : BaseRow) (key record : PyObject) :
  outcome (lookup_record key self) = Ok record ->
  BaseRow_getitem_by_object key self =
  (indexobject <- lift (PyTuple_GetItem record 0) ;;
   match indexobject with
   | Py_None =>
       exc_module <- lift (PyImport_ImportModule "sqlalchemy.exc") ;;
       exception <- lift (PyObject_GetAttrString exc_module "InvalidRequestError") ;;
       cstr_obj <- lift (PyTuple_GetItem record 2) ;;
       cstr_obj <- lift (PyObject_Str cstr_obj) ;;
       bytes <- lift (PyUnicode_AsASCIIString cstr_obj) ;;
       lift (PyErr_SetString exception (ambiguous_msg bytes))
   | _ =>
       index <- lift (PyLong_AsLong indexobject) ;;
       BaseRow_getitem index
   end)%py self.
Proof.
  intros Hrec. unfold BaseRow_getitem_by_object. unfold bind at 1.
  pose proof (lookup_record_final key self) as Hfin.
  unfold outcome in Hrec. unfold final in Hfin.
  destruct (lookup_record key self) as [r s']. simpl in *. subst. reflexivity.
Qed.

Lemma PyErr_SetString_not_Ok {A} (exception : PyObject) (msg : string) (v : A) :
  PyErr_SetString exception msg <> Ok v.
Proof. unfold PyErr_SetString. destruct (PyExceptionClass_Check exception); discriminate. Qed.

(** C3 (amended). When the record of a key has [None] as its index,
    [BaseRow_getitem_by_object] returns no value.  When
    [sqlalchemy.exc.InvalidRequestError] resolves to an exception class
    and the text of the record's third item is ASCII, the failure is that
    exception with the message "Ambiguous column name '...' in result set
    column descriptions" around the first 200 bytes of that text; when
    the text is not ASCII, the failure is the [UnicodeEncodeError] of the
    encoding. *)
Theorem ambiguous_key_fails (self : BaseRow) (key record : PyObject) :
  outcome (lookup_record key self) = Ok record ->
  PyTuple_GetItem record 0 = Ok Py_None ->
  (forall v, outcome (BaseRow_getitem_by_object key self) <> Ok v) /\
  (forall exc_module exception cstr_obj text,
     PyImport_ImportModule "sqlalchemy.exc" = Ok exc_module ->
     PyObject_GetAttrString exc_module "InvalidRequestError" = Ok exception ->
     PyExceptionClass_Check exception = true ->
     PyTuple_GetItem record 2 = Ok cstr_obj ->
     PyObject_Str cstr_obj = Ok text ->
     string_forallb is_ascii text = true ->
     outcome (BaseRow_getitem_by_object key self) =
       Err (mkPyErr exception (PyUnicode (ambiguous_msg text)))) /\
  (forall exc_module exception cstr_obj text,
     PyImport_ImportModule "sqlalchemy.exc" = Ok exc_module ->
     PyObject_GetAttrString exc_module "InvalidRequestError" = Ok exception ->
     PyTuple_GetItem record 2 = Ok cstr_obj ->
     PyObject_Str cstr_obj = Ok text ->
     string_forallb is_ascii text = false ->
     exists e,
       outcome (BaseRow_getitem_by_object key self) = Err e /\
       exc_type e = PyExc_UnicodeEncodeError).
Proof.
  intros Hrec Hidx. rewrite (BaseRow_getitem_by_object_record _ _ _ Hrec).
  unfold bind, lift, outcome. rewrite Hidx. simpl. split; [|split].
  - intros v.
    destruct (PyImport_ImportModule "sqlalchemy.exc") as [m|e|]; simpl; try discriminate.
    destruct (PyObject_GetAttrString m "InvalidRequestError") as [x|e|]; simpl;
      try discriminate.
    destruct (PyTuple_GetItem record 2) as [c|e|]; simpl; try discriminate.
    destruct (PyObject_Str c) as [t|e|]; simpl; try discriminate.
    destruct (PyUnicode_AsASCIIString t) as [b|e|]; simpl; try discriminate.
    apply PyErr_SetString_not_Ok.
  - intros exc_module exception cstr_obj text Himp Hattr Hcls Hctx Hstr Hascii.
    rewrite Himp. simpl. rewrite Hattr. simpl. rewrite Hctx. simpl. rewrite Hstr. simpl.
    unfold PyUnicode_AsASCIIString. rewrite Hascii. simpl.
    unfold PyErr_SetString. rewrite Hcls. reflexivity.
  - intros exc_module exception cstr_obj text Himp Hattr Hctx Hstr Hascii.
    rewrite Himp. simpl. rewrite Hattr. simpl. rewrite Hctx. simpl. rewrite Hstr. simpl.
    unfold PyUnicode_AsASCIIString. rewrite Hascii. simpl.
    eexists. split; reflexivity.
Qed.

(** C9 (amended). When the record of a key has [None] as its index and
    the text that the diagnostic renders, which is the text of the
    record's third item ([cstr_key] in the C code) and not the key, is
    not ASCII, the lookup fails with the [UnicodeEncodeError] of the
    encoding, not with the ambiguity error. *)
Theorem ambiguous_key_not_ascii (self : BaseRow) (key record : PyObject)
    (exc_module exception cstr_obj : PyObject) (text : string) :
  outcome (lookup_record key self) = Ok record ->
  PyTuple_GetItem record 0 = Ok Py_None ->
  PyImport_ImportModule "sqlalchemy.exc" = Ok exc_module ->
  PyObject_GetAttrString exc_module "InvalidRequestError" = Ok exception ->
  PyTuple_GetItem record 2 = Ok cstr_obj ->
  PyObject_Str cstr_obj = Ok text ->
  string_forallb is_ascii text = false ->
  exists e,
    outcome (BaseRow_getitem_by_object key self) = Err e /\
    PyUnicode_AsASCIIString text = Err e /\
    exc_type e = PyExc_UnicodeEncodeError.
Proof.
  intros Hrec Hidx Himp Hattr Hctx Hstr Hascii.
  rewrite (BaseRow_getitem_by_object_record _ _ _ Hrec).
  unfold bind, lift, outcome. rewrite Hidx. simpl.
  rewrite Himp. simpl. rewrite Hattr. simpl. rewrite Hctx. simpl. rewrite Hstr. simpl.
  unfold PyUnicode_AsASCIIString. rewrite Hascii. simpl.
  eexists. split; [reflexivity|]. split; reflexivity.
Qed.

(** What [BaseRow_getattro] does when the generic attribute lookup fails
    with [AttributeError]: it does the keyed lookup of the name; a value
    found is returned; a failure that is a [KeyError] becomes an
    [AttributeError] whose message carries the name, when the name is
    ASCII, and a [SystemError] when it is not, the encoding of the name
    being done with the [KeyError] still pending; any other failure is
    passed on as it is. *)
Theorem getattro_remaps_KeyError (self : BaseRow) (name : string) (e0 : PyErr) :
  PyObject_GenericGetAttr self name = Err e0 ->
  PyErr_ExceptionMatches e0 PyExc_AttributeError = true ->
  (forall v,
     outcome (BaseRow_getitem_by_object (PyUnicode name) self) = Ok v ->
     outcome (BaseRow_getattro name self) = Ok v) /\
  (forall e,
     outcome (BaseRow_getitem_by_object (PyUnicode name) self) = Err e ->
     PyErr_ExceptionMatches e PyExc_KeyError = true ->
     string_forallb is_ascii name = true ->
     outcome (BaseRow_getattro name self) =
       Err (mkPyErr PyExc_AttributeError (PyUnicode (attribute_msg name)))) /\
  (forall e,
     outcome (BaseRow_getitem_by_object (PyUnicode name) self) = Err e ->
     PyErr_ExceptionMatches e PyExc_KeyError = true ->
     string_forallb is_ascii name = false ->
     exists e',
       outcome (BaseRow_getattro name self) = Err e' /\
       exc_type e' = PyExc_SystemError) /\
  (forall e,
     outcome (BaseRow_getitem_by_object (PyUnicode name) self) = Err e ->
     PyErr_ExceptionMatches e PyExc_KeyError = false ->
     outcome (BaseRow_getattro name self) = Err e).
Proof.
  intros Hgen Hattr. unfold BaseRow_getattro. rewrite Hgen, Hattr. simpl.
  change (BaseRow_subscript_mapping (PyUnicode name) self)
    with (BaseRow_getitem_by_object (PyUnicode name) self).
  unfold outcome.
  destruct (BaseRow_getitem_by_object (PyUnicode name) self) as [[v|e|] s']; simpl;
    repeat split; intros; try discriminate.
  - assumption.
  - match goal with H : Err _ = Err _ |- _ => injection H as -> end.
    match goal with H : PyErr_ExceptionMatches _ _ = true |- _ => rewrite H end.
    unfold PyUnicode_AsASCIIString_pending.
    match goal with H : string_forallb _ _ = true |- _ => rewrite H end.
    reflexivity.
  - match goal with H : Err _ = Err _ |- _ => injection H as -> end.
    match goal with H : PyErr_ExceptionMatches _ _ = true |- _ => rewrite H end.
    unfold PyUnicode_AsASCIIString_pending.
    match goal with H : string_forallb _ _ = false |- _ => rewrite H end.
    eexists. split; reflexivity.
  - match goal with H : Err _ = Err _ |- _ => injection H as -> end.
    match goal with H : PyErr_ExceptionMatches _ _ = false |- _ => rewrite H end.
    reflexivity.
Qed.

End keyed_access.

Lemma ambiguous_key_fails_witness :
  outcome (@lookup_record Fixture.runtime (PyUnicode "y") Fixture.row1) =
    Ok (PyTuple [Py_None; PyUnicode "y"; PyUnicode "ambiguous column y"]) /\
  PyTuple_GetItem (PyTuple [Py_None; PyUnicode "y"; PyUnicode "ambiguous column y"]) 0
    = Ok Py_None /\
  outcome (@BaseRow_getitem_by_object Fixture.runtime (PyUnicode "y") Fixture.row1) =
    Err (mkPyErr Fixture.InvalidRequestError
           (PyUnicode
              "Ambiguous column name 'ambiguous column y' in result set column descriptions")).
Proof.
  split; [reflexivity|]. split; [reflexivity|].
  exact (proj1 (proj2 (@ambiguous_key_fails Fixture.runtime Fixture.row1 (PyUnicode "y")
                         (PyTuple [Py_None; PyUnicode "y"; PyUnicode "ambiguous column y"])
                         eq_refl eq_refl))
           Fixture.exc_module Fixture.InvalidRequestError
           (PyUnicode "ambiguous column y") "ambiguous column y"
           eq_refl eq_refl eq_refl eq_refl eq_refl eq_refl).
Defined.

(** C3 as stated fails: the key ["w"] is ambiguous in [keymap1], its
    record carries a text that is not ASCII, and the lookup fails with
    [UnicodeEncodeError], which is not the ambiguity error. *)
Lemma ambiguous_key_counterexample :
  outcome (@lookup_record Fixture.runtime (PyUnicode "w") Fixture.row1) =
    Ok (PyTuple [Py_None; PyUnicode "w"; PyUnicode Fixture.e_acute]) /\
  exists e,
    outcome (@BaseRow_getitem_by_object Fixture.runtime (PyUnicode "w") Fixture.row1)
      = Err e /\
    exc_type e = PyExc_UnicodeEncodeError /\
    PyErr_ExceptionMatches e Fixture.InvalidRequestError = false.
Proof.
  split; [reflexivity|]. eexists. split; [reflexivity|]. split; reflexivity.
Qed.

(** The message is built from the record alone: the key ["xyz"] does not
    occur in the message of its own ambiguity error. *)
Example ambiguous_key_message_from_record :
  outcome (@BaseRow_getitem_by_object Fixture.runtime (PyUnicode "xyz") Fixture.row1) =
    Err (mkPyErr Fixture.InvalidRequestError
           (PyUnicode "Ambiguous column name 'dup' in result set column descriptions")) /\
  string_contains "xyz" "Ambiguous column name 'dup' in result set column descriptions"
    = false.
Proof. split; reflexivity. Qed.

Lemma ambiguous_key_not_ascii_witness :
  outcome (@lookup_record Fixture.runtime (PyUnicode "w") Fixture.row1) =
    Ok (PyTuple [Py_None; PyUnicode "w"; PyUnicode Fixture.e_acute]) /\
  string_forallb is_ascii Fixture.e_acute = false /\
  exists e,
    outcome (@BaseRow_getitem_by_object Fixture.runtime (PyUnicode "w") Fixture.row1)
      = Err e /\
    PyUnicode_AsASCIIString Fixture.e_acute = Err e /\
    exc_type e = PyExc_UnicodeEncodeError.
Proof.
  split; [reflexivity|]. split; [reflexivity|].
  exact (@ambiguous_key_not_ascii Fixture.runtime Fixture.row1 (PyUnicode "w")
           (PyTuple [Py_None; PyUnicode "w"; PyUnicode Fixture.e_acute])
           Fixture.exc_module Fixture.InvalidRequestError
           (PyUnicode Fixture.e_acute) Fixture.e_acute
           eq_refl eq_refl eq_refl eq_refl eq_refl eq_refl eq_refl).
Defined.

(** C9 as stated fails: the key [e_acute] cannot be rendered in ASCII and
    is ambiguous in [keymap5]; its record carries the ASCII text
    ["dup"], and the lookup fails with the ordinary ambiguity error. *)
Lemma ambiguous_key_not_ascii_counterexample :
  string_forallb is_ascii Fixture.e_acute = false /\
  outcome (@lookup_record Fixture.runtime (PyUnicode Fixture.e_acute) Rows.row5) =
    Ok (PyTuple [Py_None; PyUnicode Fixture.e_acute; PyUnicode "dup"]) /\
  outcome (@BaseRow_getitem_by_object Fixture.runtime (PyUnicode Fixture.e_acute) Rows.row5) =
    Err (mkPyErr Fixture.InvalidRequestError
           (PyUnicode "Ambiguous column name 'dup' in result set column descriptions")) /\
  PyErr_ExceptionMatches
    (mkPyErr Fixture.InvalidRequestError
       (PyUnicode "Ambiguous column name 'dup' in result set column descriptions"))
    PyExc_UnicodeEncodeError = false.
Proof. repeat split. Qed.

Lemma getattro_remaps_KeyError_witness :
  (exists e0,
     @PyObject_GenericGetAttr Fixture.runtime Fixture.row1 "q" = Err e0 /\
     PyErr_ExceptionMatches e0 PyExc_AttributeError = true) /\
  outcome (@BaseRow_getattro Fixture.runtime "q" Fixture.row1) =
    Err (mkPyErr PyExc_AttributeError
           (PyUnicode "Could not locate column in row for column 'q'")) /\
  outcome (@BaseRow_getattro Fixture.runtime "z" Fixture.row1) = Ok (PyLong 20) /\
  outcome (@BaseRow_getattro Fixture.runtime "y" Fixture.row1) =
    outcome (@BaseRow_getitem_by_object Fixture.runtime (PyUnicode "y") Fixture.row1).
Proof.
  split; [eexists; split; reflexivity|].
  split; [|split].
  - destruct (@getattro_remaps_KeyError Fixture.runtime Fixture.row1 "q" _ eq_refl eq_refl)
      as (_ & Hkey & _ & _).
    exact (Hkey _ eq_refl eq_refl eq_refl).
  - destruct (@getattro_remaps_KeyError Fixture.runtime Fixture.row1 "z" _ eq_refl eq_refl)
      as (Hval & _ & _ & _).
    exact (Hval _ eq_refl).
  - destruct (@getattro_remaps_KeyError Fixture.runtime Fixture.row1 "y" _ eq_refl eq_refl)
      as (_ & _ & _ & Hother).
    exact (Hother _ eq_refl eq_refl).
Defined.

(** C7. Where the code leaves the claim: the name [e_acute] is no direct
    field of [row1] and its keyed lookup fails with a [KeyError] (a
    [NoSuchColumnError]), yet attribute access answers [SystemError],
    not the attribute error that carries the name; for the ASCII name
    ["q"], whose lookup fails alike, it answers that attribute error. *)
Theorem getattro_non_ascii_name :
  (exists e0,
     @PyObject_GenericGetAttr Fixture.runtime Fixture.row1 Fixture.e_acute = Err e0 /\
     PyErr_ExceptionMatches e0 PyExc_AttributeError = true) /\
  (exists e,
     outcome (@BaseRow_getitem_by_object Fixture.runtime (PyUnicode Fixture.e_acute)
                Fixture.row1) = Err e /\
     PyErr_ExceptionMatches e PyExc_KeyError = true) /\
  outcome (@BaseRow_getattro Fixture.runtime Fixture.e_acute Fixture.row1) =
    Err (mkPyErr PyExc_SystemError
           (PyUnicode
              "<class 'UnicodeEncodeError'> returned a result with an exception set")) /\
  PyErr_ExceptionMatches
    (mkPyErr PyExc_SystemError
       (PyUnicode "<class 'UnicodeEncodeError'> returned a result with an exception set"))
    PyExc_AttributeError = false /\
  outcome (@BaseRow_getattro Fixture.runtime "q" Fixture.row1) =
    Err (mkPyErr PyExc_AttributeError
           (PyUnicode "Could not locate column in row for column 'q'")).
Proof.
  split; [eexists; split; reflexivity|].
  split; [eexists; split; reflexivity|].
  split; [reflexivity|]. split; reflexivity.
Qed.

(** ** Reconstruction *)

(** What the reconstructor returns has its three fields set. *)
Lemma reconstructor_returns_ready `{RT : PyRuntime} (cls state : PyObject) (obj : BaseRow) :
  safe_rowproxy_reconstructor cls state = Ok obj ->
  is_Some (parent obj) /\ is_Some (row obj) /\ is_Some (keymap obj).
Proof.
  unfold safe_rowproxy_reconstructor.
  destruct (row_new cls (call_args_O cls)) as [obj0|e|]; try discriminate.
  destruct (row_setstate (call_args_O state) obj0) as [[tmp|e|] obj']; try discriminate.
  destruct (parent obj') as [p|] eqn:Hp, (row obj') as [r|] eqn:Hr,
           (keymap obj') as [k|] eqn:Hk;
    simpl; intros H; try discriminate H.
  injection H as <-. rewrite Hp, Hr, Hk. eauto.
Qed.

(** C8. When [__new__] and [__setstate__] have run and one of [parent],
    [row], [keymap] is still unset, the reconstructor fails with
    [RuntimeError], whose message names the three fields that
    [__setstate__] must set, and returns no instance. *)
Theorem reconstructor_rejects_missing_field `{RT : PyRuntime} (cls state : PyObject)
    (obj0 obj : BaseRow) (tmp : PyObject) :
  row_new cls (call_args_O cls) = Ok obj0 ->
  row_setstate (call_args_O state) obj0 = (Ok tmp, obj) ->
  parent obj = None \/ row obj = None \/ keymap obj = None ->
  safe_rowproxy_reconstructor cls state =
    Err (mkPyErr PyExc_RuntimeError (PyUnicode setstate_msg)) /\
  forall obj', safe_rowproxy_reconstructor cls state <> Ok obj'.
Proof.
  intros Hnew Hset Hmissing.
  assert (H : safe_rowproxy_reconstructor cls state =
                Err (mkPyErr PyExc_RuntimeError (PyUnicode setstate_msg))).
  { unfold safe_rowproxy_reconstructor. rewrite Hnew, Hset.
    destruct Hmissing as [-> | [-> | ->]]; simpl.
    - reflexivity.
    - destruct (parent obj); reflexivity.
    - destruct (parent obj), (row obj); reflexivity. }
  split; [exact H|]. intros obj'. rewrite H. discriminate.
Qed.

Lemma reconstructor_rejects_missing_field_witness :
  @row_new Fixture.runtime Fixture.Row (call_args_O Fixture.Row)
    = Ok (BaseRow_new Fixture.Row) /\
  @row_setstate Fixture.runtime
    (call_args_O (PyDict [(PyUnicode "_data", PyTuple [PyLong 1])]))
    (BaseRow_new Fixture.Row)
    = (Ok Py_None, mkBaseRow Fixture.Row None (Some (PyTuple [PyLong 1])) None) /\
  @safe_rowproxy_reconstructor Fixture.runtime Fixture.Row
    (PyDict [(PyUnicode "_data", PyTuple [PyLong 1])]) =
    Err (mkPyErr PyExc_RuntimeError (PyUnicode setstate_msg)).
Proof.
  split; [reflexivity|]. split; [reflexivity|].
  exact (proj1 (@reconstructor_rejects_missing_field Fixture.runtime Fixture.Row
                  (PyDict [(PyUnicode "_data", PyTuple [PyLong 1])])
                  (BaseRow_new Fixture.Row)
                  (mkBaseRow Fixture.Row None (Some (PyTuple [PyLong 1])) None)
                  Py_None eq_refl eq_refl (or_introl eq_refl))).
Defined.

(** ** The projector *)

(** C10. [tuplegetter()] with no key is accepted and has no item; called
    on a row it returns the empty tuple, whatever the row's lookup method
    is, so without calling it. *)
Theorem tuplegetter_empty :
  tuplegetter_new [] [] = Ok (mktuplegetter 0 (PyTuple [])) /\
  (forall (R : Type) (meth : list PyObject -> M R PyObject) (row0 : R),
     tuplegetter_call_on meth (mktuplegetter 0 (PyTuple [])) row0
       = (Ok (PyTuple []), row0)) /\
  (forall (RT : PyRuntime) (self : BaseRow),
     tuplegetter_call (mktuplegetter 0 (PyTuple [])) self = (Ok (PyTuple []), self)).
Proof. split; [reflexivity|]. split; intros; reflexivity. Qed.

Lemma project_keys_ext {R} (f g : PyObject -> M R PyObject) (keys : list PyObject) (row0 : R) :
  Forall (fun k => f k = g k) keys ->
  project_keys f keys row0 = project_keys g keys row0.
Proof.
  intros H. revert row0. induction H as [|k keys Hk _ IH]; intros row0; [reflexivity|].
  simpl. unfold bind. rewrite Hk. destruct (g k row0) as [[v|e|] s']; try reflexivity.
  rewrite IH. reflexivity.
Qed.

(** For keys that are not tuples the projector is the sequence of the
    keyed lookups: the tuple of the values when all succeed, the first
    failure otherwise; the row is left as it was. *)
Lemma tuplegetter_call_plain_keys `{RT : PyRuntime} (keys : list PyObject) (self : BaseRow) :
  Forall (fun k => is_tuple k = false) keys ->
  tuplegetter_call (mktuplegetter (length keys) (PyTuple keys)) self =
  match project_keys BaseRow_subscript_mapping keys self with
  | (Ok vs, _) => (Ok (PyTuple vs), self)
  | (Err e, _) => (Err e, self)
  | (Fault, _) => (Fault, self)
  end.
Proof.
  intros Hplain. unfold tuplegetter_call.
  rewrite tuplegetter_call_on_project
    by (intros args; apply BaseRow_get_by_key_impl_mapping_final).
  rewrite (project_keys_ext _ BaseRow_subscript_mapping); [reflexivity|].
  eapply Forall_impl; [exact Hplain|]. intros k Hk.
  destruct k; try discriminate; reflexivity.
Qed.

(** C4. At a key that is a tuple the projector does not do the keyed
    lookup of that key: [PyObject_CallMethod] with the format ["O"]
    spreads the tuple over the arguments of [_get_by_key_impl_mapping].
    With the two-item key [("x", "z")], which [keymap1] maps to column 1,
    the lookup gives 20 and the projector fails with [TypeError]; with
    the one-item key [(0,)], mapped to column 1 as well, the projector
    returns the value of column 0. *)
Theorem tuplegetter_call_tuple_key :
  tuplegetter_new [PyTuple [PyUnicode "x"; PyUnicode "z"]] [] =
    Ok (mktuplegetter 1 (PyTuple [PyTuple [PyUnicode "x"; PyUnicode "z"]])) /\
  outcome (@BaseRow_subscript_mapping Fixture.runtime
             (PyTuple [PyUnicode "x"; PyUnicode "z"]) Fixture.row1) = Ok (PyLong 20) /\
  outcome (@tuplegetter_call Fixture.runtime
             (mktuplegetter 1 (PyTuple [PyTuple [PyUnicode "x"; PyUnicode "z"]]))
             Fixture.row1) =
    Err (mkPyErr PyExc_TypeError
           (PyUnicode
              "BaseRow._get_by_key_impl_mapping() takes exactly one argument (2 given)")) /\
  outcome (@BaseRow_subscript_mapping Fixture.runtime (PyTuple [PyLong 0]) Fixture.row1)
    = Ok (PyLong 20) /\
  outcome (@tuplegetter_call Fixture.runtime
             (mktuplegetter 1 (PyTuple [PyTuple [PyLong 0]])) Fixture.row1) =
    Ok (PyTuple [PyLong 10]).
Proof. repeat split. Qed.

Lemma tuplegetter_call_plain_keys_example :
  outcome (@tuplegetter_call Fixture.runtime
             (mktuplegetter 2 (PyTuple [PyUnicode "x"; PyUnicode "z"])) Fixture.row1) =
    Ok (PyTuple [PyLong 10; PyLong 20]) /\
  outcome (@tuplegetter_call Fixture.runtime
             (mktuplegetter 2 (PyTuple [PyUnicode "x"; PyUnicode "q"])) Fixture.row1) =
    outcome (@BaseRow_subscript_mapping Fixture.runtime (PyUnicode "q") Fixture.row1).
Proof. split; reflexivity. Qed.

(** ** What changes a row *)

Section mutation.
Context `{RT : PyRuntime}.

Lemma BaseRow_setrow_effect (value : option PyObject) (self : BaseRow) :
  match outcome (BaseRow_setrow value self) with
  | Ok _ =>
      exists v, value = Some v /\ PySequence_Check v = true /\
        final (BaseRow_setrow value self) =
          mkBaseRow (ob_type self) (parent self) (Some v) (keymap self)
  | _ => final (BaseRow_setrow value self) = self
  end.
Proof.
  destruct value as [v|]; simpl; [|reflexivity].
  destruct (PySequence_Check v) eqn:Hseq; simpl; [|reflexivity]. eauto.
Qed.

Lemma BaseRow_setkeymap_effect (value : option PyObject) (self : BaseRow) :
  match outcome (BaseRow_setkeymap value self) with
  | Ok _ =>
      exists v, value = Some v /\ PyDict_CheckExact v = true /\
        final (BaseRow_setkeymap value self) =
          mkBaseRow (ob_type self) (parent self) (row self) (Some v)
  | _ => final (BaseRow_setkeymap value self) = self
  end.
Proof.
  destruct value as [v|]; simpl; [|reflexivity].
  destruct (PyDict_CheckExact v) eqn:Hd; simpl; [|reflexivity]. eauto.
Qed.

Lemma BaseRow_setparent_effect (value : option PyObject) (self : BaseRow) :
  match outcome (BaseRow_setparent value self) with
  | Ok _ =>
      exists v, value = Some v /\
        final (BaseRow_setparent value self) =
          mkBaseRow (ob_type self) (Some v) (row self) (keymap self)
  | _ => final (BaseRow_setparent value self) = self
  end.
Proof.
  destruct value as [v|]; simpl; [|reflexivity].
  unfold bind, lift, outcome, final.
  destruct (PyImport_ImportModule "sqlalchemy.engine.result") as [m|e|]; simpl;
    try reflexivity.
  destruct (PyObject_GetAttrString m "ResultMetaData") as [cls|e|]; simpl;
    try reflexivity.
  destruct (PyObject_IsInstance v cls =? 1)%Z; simpl; [|reflexivity]. eauto.
Qed.

(** C6 (amended). The operations that read a row (positional and keyed
    access, attribute access, iteration, the values list, the length,
    the hash, [__reduce__], the getters of [_parent], [_data] and
    [_keymap], and the projector) leave the struct as it is.  The
    setters of [_parent], [_data] and [_keymap] replace their field when
    they succeed and leave the struct as it is when they fail. *)
Theorem BaseRow_reads_keep_fields (self : BaseRow) :
  ((forall i, final (BaseRow_getitem i self) = self) /\
   (forall key, final (BaseRow_getitem_by_object key self) = self) /\
   (forall key, final (BaseRow_subscript key self) = self) /\
   (forall key, final (BaseRow_subscript_mapping key self) = self) /\
   (forall name, final (BaseRow_getattro name self) = self) /\
   final (BaseRow_iter self) = self /\
   final (BaseRow_values_impl self) = self /\
   final (BaseRow_length self) = self /\
   final (BaseRow_hash self) = self /\
   final (BaseRow_reduce self) = self /\
   final (BaseRow_getparent self) = self /\
   final (BaseRow_getrow self) = self /\
   final (BaseRow_getkeymap self) = self /\
   (forall keys,
      final (tuplegetter_call (mktuplegetter (length keys) (PyTuple keys)) self) = self)) /\
  (forall value,
     match outcome (BaseRow_setparent value self) with
     | Ok _ =>
         exists v, value = Some v /\
           final (BaseRow_setparent value self) =
             mkBaseRow (ob_type self) (Some v) (row self) (keymap self)
     | _ => final (BaseRow_setparent value self) = self
     end) /\
  (forall value,
     match outcome (BaseRow_setrow value self) with
     | Ok _ =>
         exists v, value = Some v /\ PySequence_Check v = true /\
           final (BaseRow_setrow value self) =
             mkBaseRow (ob_type self) (parent self) (Some v) (keymap self)
     | _ => final (BaseRow_setrow value self) = self
     end) /\
  (forall value,
     match outcome (BaseRow_setkeymap value self) with
     | Ok _ =>
         exists v, value = Some v /\ PyDict_CheckExact v = true /\
           final (BaseRow_setkeymap value self) =
             mkBaseRow (ob_type self) (parent self) (row self) (Some v)
     | _ => final (BaseRow_setkeymap value self) = self
     end).
Proof.
  split; [|split; [|split]].
  - repeat match goal with |- _ /\ _ => split end; try reflexivity.
    + intros i. apply BaseRow_getitem_final.
    + intros key. apply BaseRow_getitem_by_object_final.
    + intros key. apply BaseRow_subscript_impl_final.
    + intros key. apply BaseRow_subscript_impl_final.
    + intros name. apply BaseRow_getattro_final.
    + apply bind_final; [reflexivity|]. intros values. apply lift_final.
    + apply bind_final; [apply deref_final|]. intros r. apply lift_final.
    + apply BaseRow_reduce_final.
    + intros keys. unfold tuplegetter_call.
      rewrite tuplegetter_call_on_project
        by (intros args; apply BaseRow_get_by_key_impl_mapping_final).
      destruct (project_keys _ keys self) as [[vs|e|] s']; reflexivity.
  - intros value. apply BaseRow_setparent_effect.
  - intros value. apply BaseRow_setrow_effect.
  - intros value. apply BaseRow_setkeymap_effect.
Qed.

End mutation.

(** C6 as stated fails: assigning [_data] on a constructed row replaces
    its value tuple. *)
Lemma BaseRow_setrow_counterexample :
  BaseRow_call Fixture.Row Fixture.metadata [None; None] Fixture.keymap1
    (PyTuple [PyLong 10; PyLong 20]) = Ok Fixture.row1 /\
  BaseRow_setrow (Some (PyList [PyLong 99])) Fixture.row1 =
    (Ok tt, mkBaseRow Fixture.Row (Some Fixture.metadata) (Some (PyList [PyLong 99]))
              (Some Fixture.keymap1)) /\
  row (final (BaseRow_setrow (Some (PyList [PyLong 99])) Fixture.row1))
    <> row Fixture.row1.
Proof. split; [reflexivity|]. split; [reflexivity|]. discriminate. Qed.

(** * Further properties of the extension *)

(** ** Positional access *)

Lemma PyTuple_GetItem_in_range (values : list PyObject) (i : Z) :
  (0 <= i < Z.of_nat (length values))%Z ->
  exists v, values !! Z.to_nat i = Some v /\ PyTuple_GetItem (PyTuple values) i = Ok v.
Proof.
  intros Hi. unfold PyTuple_GetItem.
  destruct (Z.ltb_spec i 0) as [Hneg|_]; [lia|].
  destruct (lookup_lt_is_Some_2 values (Z.to_nat i)) as [v Hv]; [lia|].
  exists v. rewrite Hv. split; reflexivity.
Qed.

Lemma PyTuple_GetItem_out_of_range (values : list PyObject) (i : Z) :
  (i < 0 \/ Z.of_nat (length values) <= i)%Z ->
  PyTuple_GetItem (PyTuple values) i = Err index_error.
Proof.
  intros Hi. unfold PyTuple_GetItem.
  destruct (Z.ltb_spec i 0) as [Hneg|Hpos]; [reflexivity|].
  rewrite (lookup_ge_None_2 values (Z.to_nat i)) by lia. reflexivity.
Qed.

Lemma BaseRow_getitem_row (self : BaseRow) (r : PyObject) (i : Z) :
  row self = Some r ->
  BaseRow_getitem i self = (PyTuple_GetItem r i, self).
Proof.
  intros Hrow. unfold BaseRow_getitem, bind, deref, lift. rewrite Hrow. reflexivity.
Qed.

Lemma PyLong_AsLong_in_range (i : Z) :
  (LONG_MIN <= i <= LONG_MAX)%Z -> PyLong_AsLong (PyLong i) = Ok i.
Proof.
  intros [Hlo Hhi]. unfold PyLong_AsLong.
  destruct (Z.leb_spec LONG_MIN i); [|lia].
  destruct (Z.leb_spec i LONG_MAX); [|lia]. reflexivity.
Qed.

Section positional_access.
Context `{RT : PyRuntime}.

(** The integer branch of [BaseRow_subscript_impl] on a row that holds a
    tuple: a negative index is moved up by the length, once. *)
Lemma BaseRow_subscript_impl_long (self : BaseRow) (values : list PyObject) (i : Z)
    (asmapping : bool) :
  row self = Some (PyTuple values) ->
  (LONG_MIN <= i <= LONG_MAX)%Z ->
  BaseRow_subscript_impl (PyLong i) asmapping self =
  (PyTuple_GetItem (PyTuple values)
     (if (i <? 0)%Z then i + Z.of_nat (length values) else i)%Z, self).
Proof.
  intros Hrow Hi. unfold BaseRow_subscript_impl. cbn [PyLong_CheckExact].
  unfold bind, lift. rewrite (PyLong_AsLong_in_range i Hi).
  destruct (i <? 0)%Z.
  - unfold BaseRow_length. rewrite Hrow. simpl.
    apply (BaseRow_getitem_row _ _ _ Hrow).
  - apply (BaseRow_getitem_row _ _ _ Hrow).
Qed.

(** X1. On a row of [n] values, subscripting with an integer [i] such
    that [-n <= i < n] returns the value at position [i], counted from
    the end when [i] is negative; sequence-style and mapping-style
    subscripting agree. *)
Theorem BaseRow_subscript_in_range (self : BaseRow) (values : list PyObject) (i : Z) :
  row self = Some (PyTuple values) ->
  (Z.of_nat (length values) <= LONG_MAX)%Z ->
  (- Z.of_nat (length values) <= i < Z.of_nat (length values))%Z ->
  exists v,
    values !! Z.to_nat (if (i <? 0)%Z then i + Z.of_nat (length values) else i)%Z = Some v /\
    outcome (BaseRow_subscript (PyLong i) self) = Ok v /\
    outcome (BaseRow_subscript_mapping (PyLong i) self) = Ok v.
Proof.
  intros Hrow Hlen Hi.
  destruct (PyTuple_GetItem_in_range values
              (if (i <? 0)%Z then i + Z.of_nat (length values) else i)%Z) as [v [Hv Hget]].
  { destruct (Z.ltb_spec i 0); lia. }
  exists v. split; [exact Hv|].
  unfold BaseRow_subscript, BaseRow_subscript_mapping.
  rewrite !(BaseRow_subscript_impl_long self values i) by (unfold LONG_MIN, LONG_MAX in *; lia || assumption).
  unfold outcome. cbn [fst]. rewrite Hget. split; reflexivity.
Qed.

(** X2. On a row of [n] values, subscripting with an integer that fits a
    C [long] and lies outside [-n <= i < n] fails with [IndexError];
    the index is not taken modulo the length. *)
Theorem BaseRow_subscript_out_of_range (self : BaseRow) (values : list PyObject) (i : Z) :
  row self = Some (PyTuple values) ->
  (LONG_MIN <= i <= LONG_MAX)%Z ->
  (i < - Z.of_nat (length values) \/ Z.of_nat (length values) <= i)%Z ->
  outcome (BaseRow_subscript (PyLong i) self) = Err index_error /\
  outcome (BaseRow_subscript_mapping (PyLong i) self) = Err index_error.
Proof.
  intros Hrow Hlong Hi.
  unfold BaseRow_subscript, BaseRow_subscript_mapping.
  rewrite !(BaseRow_subscript_impl_long self values i) by assumption.
  unfold outcome. cbn [fst].
  rewrite PyTuple_GetItem_out_of_range by (destruct (Z.ltb_spec i 0); lia).
  split; reflexivity.
Qed.

(** X3. Subscripting with an integer that does not fit a C [long] fails
    with [OverflowError] before the row is read, whatever the state of
    the row. *)
Theorem BaseRow_subscript_overflow (self : BaseRow) (i : Z) :
  (i < LONG_MIN \/ LONG_MAX < i)%Z ->
  BaseRow_subscript (PyLong i) self =
    (Err (mkPyErr PyExc_OverflowError
            (PyUnicode "Python int too large to convert to C long")), self).
Proof.
  intros Hi. unfold BaseRow_subscript, BaseRow_subscript_impl. simpl.
  unfold bind, lift, PyLong_AsLong.
  destruct (Z.leb_spec LONG_MIN i); destruct (Z.leb_spec i LONG_MAX);
    simpl; try reflexivity; lia.
Qed.

End positional_access.

Lemma BaseRow_subscript_in_range_witness :
  row Fixture.row1 = Some (PyTuple [PyLong 10; PyLong 20]) /\
  outcome (@BaseRow_subscript Fixture.runtime (PyLong (-1)) Fixture.row1) = Ok (PyLong 20) /\
  outcome (@BaseRow_subscript Fixture.runtime (PyLong 1) Fixture.row1) = Ok (PyLong 20).
Proof.
  split; [reflexivity|].
  destruct (@BaseRow_subscript_in_range Fixture.runtime Fixture.row1
              [PyLong 10; PyLong 20] (-1) eq_refl
              ltac:(unfold LONG_MAX; simpl; lia) ltac:(simpl; lia))
    as [v [Hv [Hsub _]]].
  injection Hv as <-. split; [exact Hsub|reflexivity].
Defined.

Lemma BaseRow_subscript_out_of_range_witness :
  row Fixture.row1 = Some (PyTuple [PyLong 10; PyLong 20]) /\
  outcome (@BaseRow_subscript Fixture.runtime (PyLong 2) Fixture.row1) = Err index_error /\
  outcome (@BaseRow_subscript Fixture.runtime (PyLong (-3)) Fixture.row1) = Err index_error.
Proof.
  split; [reflexivity|]. split.
  - exact (proj1 (@BaseRow_subscript_out_of_range Fixture.runtime Fixture.row1
                    [PyLong 10; PyLong 20] 2 eq_refl
                    ltac:(unfold LONG_MIN, LONG_MAX; lia) ltac:(simpl; lia))).
  - exact (proj1 (@BaseRow_subscript_out_of_range Fixture.runtime Fixture.row1
                    [PyLong 10; PyLong 20] (-3) eq_refl
                    ltac:(unfold LONG_MIN, LONG_MAX; lia) ltac:(simpl; lia))).
Defined.

Lemma BaseRow_subscript_overflow_witness :
  (LONG_MAX < 2 ^ 63)%Z /\
  outcome (@BaseRow_subscript Fixture.runtime (PyLong (2 ^ 63)) (BaseRow_new Fixture.Row)) =
    Err (mkPyErr PyExc_OverflowError
           (PyUnicode "Python int too large to convert to C long")).
Proof.
  assert (H : (LONG_MAX < 2 ^ 63)%Z) by (unfold LONG_MAX; lia).
  split; [exact H|].
  exact (f_equal fst (@BaseRow_subscript_overflow Fixture.runtime
                        (BaseRow_new Fixture.Row) (2 ^ 63) (or_intror H))).
Defined.

(** ** Keyed access to a column *)

Lemma bind_lift {St A B} (r : PyResult A) (k : A -> M St B) (s : St) :
  bind (lift r) k s =
  match r with
  | Ok a => k a s
  | Err e => (Err e, s)
  | Fault => (Fault, s)
  end.
Proof. destruct r; reflexivity. Qed.

Section keyed_columns.
Context `{RT : PyRuntime}.

(** A key that is neither an exact [int] nor a slice goes to
    [BaseRow_getitem_by_object]. *)
Lemma BaseRow_subscript_impl_by_object (key : PyObject) (asmapping : bool) :
  PyLong_CheckExact key = false -> PySlice_Check key = false ->
  BaseRow_subscript_impl key asmapping = BaseRow_getitem_by_object key.
Proof. intros H1 H2. unfold BaseRow_subscript_impl. rewrite H1, H2. reflexivity. Qed.

Lemma BaseRow_getitem_by_object_index (self : BaseRow) (key record : PyObject) (idx : Z) :
  outcome (lookup_record key self) = Ok record ->
  PyTuple_GetItem record 0 = Ok (PyLong idx) ->
  (LONG_MIN <= idx <= LONG_MAX)%Z ->
  BaseRow_getitem_by_object key self = BaseRow_getitem idx self.
Proof.
  intros Hrec Hidx Hlong. rewrite (BaseRow_getitem_by_object_record _ _ _ Hrec).
  unfold bind at 1. unfold lift at 1. rewrite Hidx.
  unfold bind at 1. unfold lift at 1. rewrite (PyLong_AsLong_in_range idx Hlong).
  reflexivity.
Qed.

(** X4. For a key that is neither an [int] nor a slice and whose record
    carries the integer index [idx], keyed access is positional access
    at [idx]: the same value or the same failure. *)
Theorem keyed_access_is_positional (self : BaseRow) (key record : PyObject) (idx : Z) :
  PyLong_CheckExact key = false -> PySlice_Check key = false ->
  outcome (lookup_record key self) = Ok record ->
  PyTuple_GetItem record 0 = Ok (PyLong idx) ->
  (LONG_MIN <= idx <= LONG_MAX)%Z ->
  BaseRow_subscript key self = BaseRow_getitem idx self /\
  BaseRow_subscript_mapping key self = BaseRow_getitem idx self.
Proof.
  intros Hint Hslice Hrec Hidx Hlong.
  unfold BaseRow_subscript, BaseRow_subscript_mapping.
  rewrite !BaseRow_subscript_impl_by_object by assumption.
  rewrite (BaseRow_getitem_by_object_index _ _ _ _ Hrec Hidx Hlong). split; reflexivity.
Qed.

(** X5. The index of a record is used as it is: on a row of [n] values a
    record index outside [0 <= idx < n], a negative one included, makes
    keyed access fail with [IndexError]. *)
Theorem keyed_access_index_out_of_range (self : BaseRow) (values : list PyObject)
    (key record : PyObject) (idx : Z) :
  row self = Some (PyTuple values) ->
  outcome (lookup_record key self) = Ok record ->
  PyTuple_GetItem record 0 = Ok (PyLong idx) ->
  (LONG_MIN <= idx <= LONG_MAX)%Z ->
  (idx < 0 \/ Z.of_nat (length values) <= idx)%Z ->
  outcome (BaseRow_getitem_by_object key self) = Err index_error.
Proof.
  intros Hrow Hrec Hidx Hlong Hout.
  rewrite (BaseRow_getitem_by_object_index _ _ _ _ Hrec Hidx Hlong).
  rewrite (BaseRow_getitem_row _ _ _ Hrow). unfold outcome. cbn [fst].
  apply PyTuple_GetItem_out_of_range. exact Hout.
Qed.

Lemma lookup_record_hit (self : BaseRow) (km key record : PyObject) :
  keymap self = Some km -> PyDict_GetItem km key = Some record ->
  lookup_record key self = (Ok record, self).
Proof.
  intros Hkm Hhit. unfold lookup_record, bind, deref. rewrite Hkm, Hhit. reflexivity.
Qed.

Lemma lookup_record_miss (self : BaseRow) (km key p : PyObject) :
  keymap self = Some km -> PyDict_GetItem km key = None -> parent self = Some p ->
  lookup_record key self =
    (PyObject_CallMethodArgs p "_key_fallback" (call_args_O key), self).
Proof.
  intros Hkm Hmiss Hp. unfold lookup_record, bind, deref. rewrite Hkm, Hmiss, Hp.
  destruct (PyObject_CallMethodArgs p "_key_fallback" (call_args_O key)); reflexivity.
Qed.

(** X6. For a key found in the keymap, [_key_fallback] is not called:
    two rows with the same keymap and the same values answer the key
    alike, whatever their parents are, an unset parent included. *)
Theorem keyed_access_hit_ignores_parent (self1 self2 : BaseRow) (km key record : PyObject) :
  keymap self1 = Some km -> keymap self2 = Some km ->
  row self1 = row self2 ->
  PyDict_GetItem km key = Some record ->
  outcome (BaseRow_getitem_by_object key self1) =
  outcome (BaseRow_getitem_by_object key self2).
Proof.
  intros Hkm1 Hkm2 Hrow Hhit.
  rewrite (BaseRow_getitem_by_object_record self1 key record)
    by (rewrite (lookup_record_hit _ _ _ _ Hkm1 Hhit); reflexivity).
  rewrite (BaseRow_getitem_by_object_record self2 key record)
    by (rewrite (lookup_record_hit _ _ _ _ Hkm2 Hhit); reflexivity).
  unfold outcome. rewrite !bind_lift.
  destruct (PyTuple_GetItem record 0) as [indexobject|e|]; [|reflexivity|reflexivity].
  destruct indexobject;
    try (rewrite !bind_lift;
         destruct (PyLong_AsLong _) as [index|e|]; [|reflexivity|reflexivity];
         unfold BaseRow_getitem, bind, deref, lift; rewrite Hrow;
         destruct (row self2); reflexivity).
  rewrite !bind_lift.
  destruct (PyImport_ImportModule "sqlalchemy.exc") as [m|e|]; [|reflexivity|reflexivity].
  rewrite !bind_lift.
  destruct (PyObject_GetAttrString m "InvalidRequestError") as [x|e|];
    [|reflexivity|reflexivity].
  rewrite !bind_lift.
  destruct (PyTuple_GetItem record 2) as [c|e|]; [|reflexivity|reflexivity].
  rewrite !bind_lift.
  destruct (PyObject_Str c) as [t|e|]; [|reflexivity|reflexivity].
  rewrite !bind_lift.
  destruct (PyUnicode_AsASCIIString t) as [b|e|]; reflexivity.
Qed.

(** X7. For a key that is neither an [int] nor a slice and is missing
    from the keymap, a failure of the parent's [_key_fallback] is the
    failure of the access, unchanged; the argument vector of the call is
    the key, or its items when the key is a tuple. *)
Theorem keyed_access_miss_propagates (self : BaseRow) (km key p : PyObject) (e : PyErr) :
  PyLong_CheckExact key = false -> PySlice_Check key = false ->
  keymap self = Some km -> PyDict_GetItem km key = None -> parent self = Some p ->
  PyObject_CallMethodArgs p "_key_fallback" (call_args_O key) = Err e ->
  BaseRow_subscript key self = (Err e, self) /\
  BaseRow_subscript_mapping key self = (Err e, self).
Proof.
  intros Hint Hslice Hkm Hmiss Hp Hfall.
  unfold BaseRow_subscript, BaseRow_subscript_mapping.
  rewrite !BaseRow_subscript_impl_by_object by assumption.
  assert (H : BaseRow_getitem_by_object key self = (Err e, self)).
  { unfold BaseRow_getitem_by_object. unfold bind at 1.
    rewrite (lookup_record_miss _ _ _ _ Hkm Hmiss Hp), Hfall. reflexivity. }
  rewrite H. split; reflexivity.
Qed.

End keyed_columns.

Lemma keyed_access_is_positional_witness :
  outcome (@lookup_record Fixture.runtime (PyUnicode "z") Fixture.row1) =
    Ok (PyTuple [PyLong 1; PyUnicode "z"; PyUnicode "z"]) /\
  @BaseRow_subscript Fixture.runtime (PyUnicode "z") Fixture.row1 =
    BaseRow_getitem 1 Fixture.row1 /\
  outcome (BaseRow_getitem 1 Fixture.row1) = Ok (PyLong 20).
Proof.
  split; [reflexivity|]. split; [|reflexivity].
  exact (proj1 (@keyed_access_is_positional Fixture.runtime Fixture.row1 (PyUnicode "z")
                  (PyTuple [PyLong 1; PyUnicode "z"; PyUnicode "z"]) 1
                  eq_refl eq_refl eq_refl eq_refl
                  ltac:(unfold LONG_MIN, LONG_MAX; lia))).
Defined.

Lemma keyed_access_index_out_of_range_witness :
  outcome (@lookup_record Fixture.runtime (PyUnicode "last") Rows.row3) =
    Ok (PyTuple [PyLong (-1); PyUnicode "last"; PyUnicode "last"]) /\
  outcome (@BaseRow_getitem_by_object Fixture.runtime (PyUnicode "last") Rows.row3)
    = Err index_error /\
  outcome (@BaseRow_subscript Fixture.runtime (PyLong (-1)) Rows.row3) = Ok (PyLong 20).
Proof.
  split; [reflexivity|]. split; [|reflexivity].
  exact (@keyed_access_index_out_of_range Fixture.runtime Rows.row3
           [PyLong 10; PyLong 20] (PyUnicode "last")
           (PyTuple [PyLong (-1); PyUnicode "last"; PyUnicode "last"]) (-1)
           eq_refl eq_refl eq_refl
           ltac:(unfold LONG_MIN, LONG_MAX; lia)
           (or_introl eq_refl)).
Defined.

Lemma keyed_access_hit_ignores_parent_witness :
  keymap Fixture.row1 = Some Fixture.keymap1 /\
  outcome (@BaseRow_getitem_by_object Fixture.runtime (PyUnicode "x") Fixture.row1) =
  outcome (@BaseRow_getitem_by_object Fixture.runtime (PyUnicode "x")
             (mkBaseRow Fixture.Row None (Some (PyTuple [PyLong 10; PyLong 20]))
                (Some Fixture.keymap1))).
Proof.
  split; [reflexivity|].
  exact (@keyed_access_hit_ignores_parent Fixture.runtime Fixture.row1
           (mkBaseRow Fixture.Row None (Some (PyTuple [PyLong 10; PyLong 20]))
              (Some Fixture.keymap1))
           Fixture.keymap1 (PyUnicode "x")
           (PyTuple [PyLong 0; PyUnicode "x"; PyUnicode "x"])
           eq_refl eq_refl eq_refl eq_refl).
Defined.

Lemma keyed_access_miss_propagates_witness :
  PyDict_GetItem Fixture.keymap1 (PyUnicode "q") = None /\
  @BaseRow_subscript Fixture.runtime (PyUnicode "q") Fixture.row1 =
    (Err (mkPyErr Fixture.NoSuchColumnError (PyUnicode "Could not locate column in row")),
     Fixture.row1).
Proof.
  split; [reflexivity|].
  exact (proj1 (@keyed_access_miss_propagates Fixture.runtime Fixture.row1
                  Fixture.keymap1 (PyUnicode "q") Fixture.metadata _
                  eq_refl eq_refl eq_refl eq_refl eq_refl eq_refl)).
Defined.

(** ** Rows that construction returns *)

Lemma BaseRow_call_Ok_inv (type parent' keymap' row' : PyObject)
    (processors : list (option processor)) (self : BaseRow) :
  BaseRow_call type parent' processors keymap' row' = Ok self ->
  exists rawValues values,
    PySequence_Fast row' "row must be a sequence" = Ok rawValues /\
    length rawValues = length processors /\
    processed_values processors rawValues = Ok values /\
    PyDict_CheckExact keymap' = true /\
    self = mkBaseRow type (Some parent') (Some (PyTuple values)) (Some keymap').
Proof.
  unfold BaseRow_call. intros Hcall.
  destruct (PySequence_Fast row' "row must be a sequence") as [rawValues|e|] eqn:Hseq.
  - destruct (decide (length rawValues = length processors)) as [Hlen|Hne].
    + rewrite (BaseRow_init_equal_lengths _ _ _ _ _ _ Hseq Hlen) in Hcall.
      destruct (processed_values processors rawValues) as [values|e|] eqn:Hvalues;
        try discriminate.
      destruct (PyDict_CheckExact keymap') eqn:Hdict; [|discriminate].
      injection Hcall as <-. exists rawValues, values. auto.
    + exfalso. revert Hcall.
      unfold BaseRow_init, bind, set_parent, modify, lift. simpl. rewrite Hseq.
      destruct (Z.eqb_spec (Z.of_nat (length rawValues)) (Z.of_nat (length processors)));
        [lia|]. discriminate.
  - exfalso. revert Hcall.
    unfold BaseRow_init, bind, set_parent, modify, lift. simpl. rewrite Hseq. discriminate.
  - exfalso. revert Hcall.
    unfold BaseRow_init, bind, set_parent, modify, lift. simpl. rewrite Hseq. discriminate.
Qed.

Lemma processed_values_length (processors : list (option processor)) :
  forall (rawValues values : list PyObject),
    length rawValues = length processors ->
    processed_values processors rawValues = Ok values ->
    length values = length processors.
Proof.
  intros rawValues values Hlen Hok.
  destruct (processed_values_lookup _ _ _ Hlen Hok) as [Hl _]. lia.
Qed.

Lemma processed_values_no_processor (processors : list (option processor)) :
  Forall (fun func => func = None) processors ->
  forall rawValues : list PyObject,
    length rawValues = length processors ->
    processed_values processors rawValues = Ok rawValues.
Proof.
  induction 1 as [|func processors -> _ IH]; intros [|value rawValues] Hlen;
    try discriminate; [reflexivity|].
  simpl. rewrite IH by (simpl in Hlen; lia). reflexivity.
Qed.

(** X8. Every row that the constructor returns is fully set up: it has
    the type it was called on, the parent and the keymap it was given,
    its keymap is a dict, and its values are a tuple with one value for
    each processor. *)
Theorem BaseRow_call_returns_ready (type parent' keymap' row' : PyObject)
    (processors : list (option processor)) (self : BaseRow) :
  BaseRow_call type parent' processors keymap' row' = Ok self ->
  ob_type self = type /\
  parent self = Some parent' /\
  keymap self = Some keymap' /\
  PyDict_CheckExact keymap' = true /\
  exists values,
    row self = Some (PyTuple values) /\ length values = length processors.
Proof.
  intros Hcall.
  destruct (BaseRow_call_Ok_inv _ _ _ _ _ _ Hcall)
    as (rawValues & values & Hseq & Hlen & Hvalues & Hdict & ->).
  repeat (split; [reflexivity || assumption|]).
  exists values. split; [reflexivity|].
  exact (processed_values_length _ _ _ Hlen Hvalues).
Qed.

(** X9. On a row that the constructor returns, the length is the number
    of processors, iteration yields the values in order, the values
    list holds the same items as a list, and the position of each value
    answers that value. *)
Theorem BaseRow_call_then_read (type parent' keymap' row' : PyObject)
    (processors : list (option processor)) (self : BaseRow) :
  BaseRow_call type parent' processors keymap' row' = Ok self ->
  outcome (BaseRow_length self) = Ok (Z.of_nat (length processors)) /\
  exists values,
    row self = Some (PyTuple values) /\
    outcome (BaseRow_iter self) = Ok values /\
    outcome (BaseRow_values_impl self) = Ok (PyList values) /\
    forall i v,
      values !! i = Some v -> outcome (BaseRow_getitem (Z.of_nat i) self) = Ok v.
Proof.
  intros Hcall.
  destruct (BaseRow_call_Ok_inv _ _ _ _ _ _ Hcall)
    as (rawValues & values & Hseq & Hlen & Hvalues & Hdict & ->).
  pose proof (processed_values_length _ _ _ Hlen Hvalues) as Hl.
  split.
  - unfold outcome, BaseRow_length. simpl. rewrite Hl. reflexivity.
  - exists values. split; [reflexivity|]. split; [reflexivity|]. split; [reflexivity|].
    intros i v Hv. rewrite (BaseRow_getitem_row _ (PyTuple values)) by reflexivity.
    unfold outcome, PyTuple_GetItem. cbn [fst].
    destruct (Z.ltb_spec (Z.of_nat i) 0); [lia|].
    rewrite Nat2Z.id, Hv. reflexivity.
Qed.

(** X10. When the row argument is not iterable, construction fails with
    [TypeError] "row must be a sequence", whatever the processors and
    the keymap are. *)
Theorem BaseRow_call_row_not_iterable (type parent' keymap' row' : PyObject)
    (processors : list (option processor)) :
  iter_items row' = None ->
  BaseRow_call type parent' processors keymap' row' =
    Err (mkPyErr PyExc_TypeError (PyUnicode "row must be a sequence")).
Proof.
  intros Hiter. unfold BaseRow_call, BaseRow_init, bind, set_parent, modify, lift,
    PySequence_Fast. simpl. rewrite Hiter. reflexivity.
Qed.

(** X11. When the lengths agree and the processors succeed but the
    keymap is not a dict, [BaseRow_init] fails with [TypeError] "keymap
    must be a dict" after it has stored the parent and the new value
    tuple: run again on a live row, it leaves that row with the new
    parent and values and the old keymap; the constructor returns no
    row. *)
Theorem BaseRow_init_keymap_not_dict (type parent' keymap' row' : PyObject)
    (processors : list (option processor)) (rawValues values : list PyObject)
    (self : BaseRow) :
  PySequence_Fast row' "row must be a sequence" = Ok rawValues ->
  length rawValues = length processors ->
  processed_values processors rawValues = Ok values ->
  PyDict_CheckExact keymap' = false ->
  BaseRow_init parent' processors keymap' row' self =
    (Err (mkPyErr PyExc_TypeError (PyUnicode "keymap must be a dict")),
     mkBaseRow (ob_type self) (Some parent') (Some (PyTuple values)) (keymap self)) /\
  BaseRow_call type parent' processors keymap' row' =
    Err (mkPyErr PyExc_TypeError (PyUnicode "keymap must be a dict")).
Proof.
  intros Hseq Hlen Hvalues Hdict. split.
  - rewrite (BaseRow_init_equal_lengths _ _ _ _ _ _ Hseq Hlen), Hvalues, Hdict. reflexivity.
  - unfold BaseRow_call.
    rewrite (BaseRow_init_equal_lengths _ _ _ _ _ _ Hseq Hlen), Hvalues, Hdict. reflexivity.
Qed.

(** X12. When every processor is [None], the constructed row holds the
    raw values themselves, in order, as a tuple. *)
Theorem BaseRow_call_no_processor (type parent' keymap' row' : PyObject)
    (processors : list (option processor)) (rawValues : list PyObject) :
  PySequence_Fast row' "row must be a sequence" = Ok rawValues ->
  length rawValues = length processors ->
  PyDict_CheckExact keymap' = true ->
  Forall (fun func => func = None) processors ->
  BaseRow_call type parent' processors keymap' row' =
    Ok (mkBaseRow type (Some parent') (Some (PyTuple rawValues)) (Some keymap')).
Proof.
  intros Hseq Hlen Hdict Hnone. unfold BaseRow_call.
  rewrite (BaseRow_init_equal_lengths _ _ _ _ _ _ Hseq Hlen),
    (processed_values_no_processor _ Hnone _ Hlen), Hdict. reflexivity.
Qed.

Lemma BaseRow_call_returns_ready_witness :
  BaseRow_call Fixture.Row Fixture.metadata [None; Some Fixture.uppercase]
    Fixture.keymap1 (PyList [PyLong 1; PyUnicode "a"]) =
    Ok (mkBaseRow Fixture.Row (Some Fixture.metadata)
          (Some (PyTuple [PyLong 1; PyUnicode "A"])) (Some Fixture.keymap1)) /\
  exists values,
    Some (PyTuple [PyLong 1; PyUnicode "A"]) = Some (PyTuple values) /\
    length values = 2.
Proof.
  split; [reflexivity|].
  exact (proj2 (proj2 (proj2 (proj2
    (BaseRow_call_returns_ready Fixture.Row Fixture.metadata Fixture.keymap1
       (PyList [PyLong 1; PyUnicode "a"]) [None; Some Fixture.uppercase] _ eq_refl))))).
Defined.

Lemma BaseRow_call_then_read_witness :
  BaseRow_call Fixture.Row Fixture.metadata [None; Some Fixture.uppercase]
    Fixture.keymap1 (PyList [PyLong 1; PyUnicode "a"]) =
    Ok (mkBaseRow Fixture.Row (Some Fixture.metadata)
          (Some (PyTuple [PyLong 1; PyUnicode "A"])) (Some Fixture.keymap1)) /\
  outcome (BaseRow_length
             (mkBaseRow Fixture.Row (Some Fixture.metadata)
                (Some (PyTuple [PyLong 1; PyUnicode "A"])) (Some Fixture.keymap1)))
    = Ok 2%Z.
Proof.
  split; [reflexivity|].
  exact (proj1
    (BaseRow_call_then_read Fixture.Row Fixture.metadata Fixture.keymap1
       (PyList [PyLong 1; PyUnicode "a"]) [None; Some Fixture.uppercase] _ eq_refl)).
Defined.

Lemma BaseRow_call_row_not_iterable_witness :
  iter_items (PyLong 5) = None /\
  BaseRow_call Fixture.Row Fixture.metadata [None] Fixture.keymap1 (PyLong 5) =
    Err (mkPyErr PyExc_TypeError (PyUnicode "row must be a sequence")).
Proof.
  split; [reflexivity|].
  exact (BaseRow_call_row_not_iterable Fixture.Row Fixture.metadata Fixture.keymap1
           (PyLong 5) [None] eq_refl).
Defined.

Lemma BaseRow_init_keymap_not_dict_witness :
  PyDict_CheckExact Py_None = false /\
  BaseRow_init Fixture.other_metadata [None] Py_None (PyTuple [PyLong 7]) Fixture.row1 =
    (Err (mkPyErr PyExc_TypeError (PyUnicode "keymap must be a dict")),
     mkBaseRow Fixture.Row (Some Fixture.other_metadata) (Some (PyTuple [PyLong 7]))
       (Some Fixture.keymap1)).
Proof.
  split; [reflexivity|].
  exact (proj1 (BaseRow_init_keymap_not_dict Fixture.Row Fixture.other_metadata Py_None
                  (PyTuple [PyLong 7]) [None] [PyLong 7] [PyLong 7] Fixture.row1
                  eq_refl eq_refl eq_refl eq_refl)).
Defined.

Lemma BaseRow_call_no_processor_witness :
  Forall (fun func : option processor => func = None) [None; None] /\
  BaseRow_call Fixture.Row Fixture.metadata [None; None] Fixture.keymap1
    (PyList [PyLong 10; PyLong 20]) = Ok Fixture.row1.
Proof.
  assert (Hnone : Forall (fun func : option processor => func = None) [None; None]).
  { repeat constructor. }
  split; [exact Hnone|].
  exact (BaseRow_call_no_processor Fixture.Row Fixture.metadata Fixture.keymap1
           (PyList [PyLong 10; PyLong 20]) [None; None] [PyLong 10; PyLong 20]
           eq_refl eq_refl eq_refl Hnone).
Defined.

(** ** Assigning the fields *)

(** X13. A value assigned to [_data] or to [_keymap] that passes the
    setter's check is what the getter then returns, and the other two
    fields are as before; a value that fails the check is refused with
    [TypeError] and the row is unchanged. *)
Theorem setter_then_getter (self : BaseRow) (v : PyObject) :
  (PySequence_Check v = true ->
   outcome ((BaseRow_setrow (Some v) ;; BaseRow_getrow)%py self) = Ok v /\
   parent (final (BaseRow_setrow (Some v) self)) = parent self /\
   keymap (final (BaseRow_setrow (Some v) self)) = keymap self) /\
  (PySequence_Check v = false ->
   BaseRow_setrow (Some v) self =
     (Err (mkPyErr PyExc_TypeError
             (PyUnicode "The 'row' attribute value must be a sequence")), self)) /\
  (PyDict_CheckExact v = true ->
   outcome ((BaseRow_setkeymap (Some v) ;; BaseRow_getkeymap)%py self) = Ok v /\
   parent (final (BaseRow_setkeymap (Some v) self)) = parent self /\
   row (final (BaseRow_setkeymap (Some v) self)) = row self) /\
  (PyDict_CheckExact v = false ->
   BaseRow_setkeymap (Some v) self =
     (Err (mkPyErr PyExc_TypeError
             (PyUnicode "The 'keymap' attribute value must be a dict")), self)).
Proof.
  unfold BaseRow_setrow, BaseRow_setkeymap.
  split; [|split; [|split]]; intros ->; try reflexivity; repeat split.
Qed.

(** Deleting [_parent], [_data] or [_keymap] is refused with
    [TypeError] and leaves the row unchanged. *)
Lemma setter_refuses_delete `{RT : PyRuntime} (self : BaseRow) :
  BaseRow_setparent None self =
    (Err (mkPyErr PyExc_TypeError (PyUnicode "Cannot delete the 'parent' attribute")),
     self) /\
  BaseRow_setrow None self =
    (Err (mkPyErr PyExc_TypeError (PyUnicode "Cannot delete the 'row' attribute")),
     self) /\
  BaseRow_setkeymap None self =
    (Err (mkPyErr PyExc_TypeError (PyUnicode "Cannot delete the 'keymap' attribute")),
     self).
Proof. split; [|split]; reflexivity. Qed.

(** X14. [_parent] accepts a value exactly when
    [sqlalchemy.engine.result.ResultMetaData] resolves and
    [PyObject_IsInstance] answers 1 for it; any other answer, the error
    answer -1 included, is refused with [TypeError] and the row is
    unchanged. *)
Theorem BaseRow_setparent_isinstance `{RT : PyRuntime} (self : BaseRow)
    (value module cls : PyObject) :
  PyImport_ImportModule "sqlalchemy.engine.result" = Ok module ->
  PyObject_GetAttrString module "ResultMetaData" = Ok cls ->
  (PyObject_IsInstance value cls = 1%Z ->
   BaseRow_setparent (Some value) self =
     (Ok tt, mkBaseRow (ob_type self) (Some value) (row self) (keymap self))) /\
  (PyObject_IsInstance value cls <> 1%Z ->
   BaseRow_setparent (Some value) self =
     (Err (mkPyErr PyExc_TypeError
             (PyUnicode
                "The 'parent' attribute value must be an instance of ResultMetaData")),
      self)).
Proof.
  intros Himp Hattr. unfold BaseRow_setparent.
  rewrite !bind_lift, Himp, !bind_lift, Hattr. split.
  - intros ->. reflexivity.
  - intros Hne. destruct (Z.eqb_spec (PyObject_IsInstance value cls) 1); [contradiction|].
    reflexivity.
Qed.

Lemma BaseRow_setparent_isinstance_witness :
  @PyImport_ImportModule Fixture.runtime "sqlalchemy.engine.result"
    = Ok Fixture.result_module /\
  @BaseRow_setparent Fixture.runtime (Some Fixture.other_metadata) Fixture.row1 =
    (Ok tt, mkBaseRow Fixture.Row (Some Fixture.other_metadata)
              (Some (PyTuple [PyLong 10; PyLong 20])) (Some Fixture.keymap1)) /\
  @BaseRow_setparent Fixture.runtime (Some (PyLong 3)) Fixture.row1 =
    (Err (mkPyErr PyExc_TypeError
            (PyUnicode
               "The 'parent' attribute value must be an instance of ResultMetaData")),
     Fixture.row1).
Proof.
  split; [reflexivity|]. split.
  - exact (proj1 (@BaseRow_setparent_isinstance Fixture.runtime Fixture.row1
                    Fixture.other_metadata Fixture.result_module Fixture.ResultMetaData
                    eq_refl eq_refl) eq_refl).
  - exact (proj2 (@BaseRow_setparent_isinstance Fixture.runtime Fixture.row1
                    (PyLong 3) Fixture.result_module Fixture.ResultMetaData
                    eq_refl eq_refl) ltac:(discriminate)).
Defined.

(** ** Rows that do not hold a tuple *)

Lemma PyTuple_GetItem_not_tuple (op : PyObject) (i : Z) :
  is_tuple op = false -> PyTuple_GetItem op i = Err bad_internal_call.
Proof. destruct op; try discriminate; reflexivity. Qed.

(** X15. [_data] accepts any sequence, positional access reads a tuple:
    after a list or a [str] has been assigned to [_data], the length is
    still answered, and positional access fails with [SystemError] at
    every index. *)
Theorem positional_access_after_setrow `{RT : PyRuntime} (self : BaseRow) (v : PyObject) :
  PySequence_Check v = true ->
  is_tuple v = false ->
  (exists n, outcome (BaseRow_length (final (BaseRow_setrow (Some v) self))) = Ok n) /\
  (forall i,
     outcome (BaseRow_getitem i (final (BaseRow_setrow (Some v) self)))
       = Err bad_internal_call) /\
  (forall i,
     (LONG_MIN <= i <= LONG_MAX)%Z ->
     outcome (BaseRow_subscript (PyLong i) (final (BaseRow_setrow (Some v) self)))
       = Err bad_internal_call).
Proof.
  intros Hseq Htuple. unfold BaseRow_setrow. rewrite Hseq. cbn [negb].
  set (self' := final (set_row v self)).
  assert (Hrow : row self' = Some v) by reflexivity.
  split; [|split].
  - unfold outcome, BaseRow_length. cbn [fst]. rewrite Hrow.
    destruct v; try discriminate; eexists; reflexivity.
  - intros i. rewrite (BaseRow_getitem_row _ _ _ Hrow). unfold outcome. cbn [fst].
    apply PyTuple_GetItem_not_tuple. exact Htuple.
  - intros i Hi. unfold BaseRow_subscript, BaseRow_subscript_impl. cbn [PyLong_CheckExact].
    rewrite bind_lift, (PyLong_AsLong_in_range i Hi).
    destruct (i <? 0)%Z; rewrite (BaseRow_getitem_row _ _ _ Hrow); unfold outcome; cbn [fst];
      apply PyTuple_GetItem_not_tuple; exact Htuple.
Qed.

Lemma positional_access_after_setrow_witness :
  PySequence_Check (PyList [PyLong 99]) = true /\
  is_tuple (PyList [PyLong 99]) = false /\
  outcome (@BaseRow_subscript Fixture.runtime (PyLong 0)
             (final (BaseRow_setrow (Some (PyList [PyLong 99])) Fixture.row1)))
    = Err bad_internal_call.
Proof.
  split; [reflexivity|]. split; [reflexivity|].
  exact (proj2 (proj2 (@positional_access_after_setrow Fixture.runtime Fixture.row1
                         (PyList [PyLong 99]) eq_refl eq_refl))
           0%Z ltac:(unfold LONG_MIN, LONG_MAX; lia)).
Defined.

(** X16. On a row whose value tuple is unset, as [__new__] leaves it,
    the length, iteration and the values list fail with [SystemError];
    positional access, the hash and the [_data] getter dereference the
    [NULL] pointer. *)
Theorem unset_row_access `{RT : PyRuntime} (self : BaseRow) :
  row self = None ->
  outcome (BaseRow_length self) = Err null_argument /\
  outcome (BaseRow_iter self) = Err null_argument /\
  outcome (BaseRow_values_impl self) = Err null_argument /\
  (forall i, outcome (BaseRow_getitem i self) = Fault) /\
  outcome (BaseRow_hash self) = Fault /\
  outcome (BaseRow_getrow self) = Fault.
Proof.
  intros Hrow.
  unfold outcome, BaseRow_length, BaseRow_iter, BaseRow_values_impl, BaseRow_getitem,
    BaseRow_hash, BaseRow_getrow, bind, deref, lift.
  rewrite Hrow. repeat split.
Qed.

Lemma unset_row_access_witness :
  row (BaseRow_new Fixture.Row) = None /\
  outcome (BaseRow_length (BaseRow_new Fixture.Row)) = Err null_argument /\
  outcome (@BaseRow_hash Fixture.runtime (BaseRow_new Fixture.Row)) = Fault.
Proof.
  pose proof (@unset_row_access Fixture.runtime (BaseRow_new Fixture.Row) eq_refl)
    as (Hlen & _ & _ & _ & Hhash & _).
  split; [reflexivity|]. split; [exact Hlen | exact Hhash].
Defined.

(** ** The reconstructor *)

Section reconstructor.
Context `{RT : PyRuntime}.

(** X17. When [__new__] and [__setstate__] succeed and leave the three
    fields set, the reconstructor returns the instance as
    [__setstate__] left it. *)
Theorem reconstructor_returns_instance (cls state : PyObject) (obj0 obj : BaseRow)
    (tmp : PyObject) :
  row_new cls (call_args_O cls) = Ok obj0 ->
  row_setstate (call_args_O state) obj0 = (Ok tmp, obj) ->
  is_Some (parent obj) -> is_Some (row obj) -> is_Some (keymap obj) ->
  safe_rowproxy_reconstructor cls state = Ok obj.
Proof.
  intros Hnew Hset [p Hp] [r Hr] [k Hk].
  unfold safe_rowproxy_reconstructor. rewrite Hnew, Hset, Hp, Hr, Hk. reflexivity.
Qed.

(** X18. A failure of [__new__] or of [__setstate__] is the failure of
    the reconstructor, unchanged; after a failure of [__setstate__] no
    instance is returned even when the three fields are set. *)
Theorem reconstructor_propagates (cls state : PyObject) (e : PyErr) :
  (row_new cls (call_args_O cls) = Err e ->
   safe_rowproxy_reconstructor cls state = Err e) /\
  (forall obj0 obj,
     row_new cls (call_args_O cls) = Ok obj0 ->
     row_setstate (call_args_O state) obj0 = (Err e, obj) ->
     safe_rowproxy_reconstructor cls state = Err e).
Proof.
  unfold safe_rowproxy_reconstructor. split.
  - intros ->. reflexivity.
  - intros obj0 obj -> ->. reflexivity.
Qed.

(** X19. The state reaches [__setstate__] through the format ["O"]: a
    state that is a tuple is spread over the arguments, so a one-item
    tuple around a state that is not a tuple is reconstructed like that
    state itself. *)
Theorem reconstructor_spreads_tuple_state (cls state : PyObject) :
  is_tuple state = false ->
  safe_rowproxy_reconstructor cls (PyTuple [state]) = safe_rowproxy_reconstructor cls state.
Proof.
  intros Hstate. unfold safe_rowproxy_reconstructor.
  replace (call_args_O (PyTuple [state])) with (call_args_O state); [reflexivity|].
  destruct state; try discriminate; reflexivity.
Qed.

End reconstructor.

Lemma reconstructor_returns_instance_witness :
  @row_setstate Fixture.runtime (call_args_O Rows.state1) (BaseRow_new Fixture.Row)
    = (Ok Py_None, Fixture.row1) /\
  @safe_rowproxy_reconstructor Fixture.runtime Fixture.Row Rows.state1 = Ok Fixture.row1.
Proof.
  split; [reflexivity|].
  exact (@reconstructor_returns_instance Fixture.runtime Fixture.Row Rows.state1
           (BaseRow_new Fixture.Row) Fixture.row1 Py_None eq_refl eq_refl
           (ex_intro _ _ eq_refl) (ex_intro _ _ eq_refl) (ex_intro _ _ eq_refl)).
Defined.

Lemma reconstructor_spreads_tuple_state_witness :
  is_tuple Rows.state1 = false /\
  @safe_rowproxy_reconstructor Fixture.runtime Fixture.Row (PyTuple [Rows.state1])
    = Ok Fixture.row1.
Proof.
  split; [reflexivity|].
  exact (eq_trans
           (@reconstructor_spreads_tuple_state Fixture.runtime Fixture.Row Rows.state1
              eq_refl)
           eq_refl).
Defined.

(** ** The projector, continued *)

Lemma project_keys_length {R} (f : PyObject -> M R PyObject) (keys : list PyObject) :
  forall (row0 row1 : R) (vs : list PyObject),
    project_keys f keys row0 = (Ok vs, row1) -> length vs = length keys.
Proof.
  induction keys as [|k keys IH]; intros row0 row1 vs; simpl.
  - intros [= <- _]. reflexivity.
  - unfold bind at 1. destruct (f k row0) as [[v|e|] s1]; try discriminate.
    unfold bind at 1. destruct (project_keys f keys s1) as [[vs'|e|] s2] eqn:Hrest;
      try discriminate.
    intros [= <- _]. simpl. rewrite (IH _ _ _ Hrest). reflexivity.
Qed.

Lemma project_keys_all_ok {R} (f : PyObject -> M R PyObject) (row0 : R)
    (keys vs : list PyObject) :
  (forall k, final (f k row0) = row0) ->
  Forall2 (fun k v => outcome (f k row0) = Ok v) keys vs ->
  project_keys f keys row0 = (Ok vs, row0).
Proof.
  intros Hframe H. induction H as [|k v keys vs Hk _ IH]; [reflexivity|].
  simpl. unfold bind at 1. specialize (Hframe k). unfold final, outcome in *.
  destruct (f k row0) as [r s1]. simpl in *. subst.
  unfold bind at 1. rewrite IH. reflexivity.
Qed.

Lemma project_keys_first_failure {R} (f : PyObject -> M R PyObject) (row0 : R)
    (keys1 keys2 vs1 : list PyObject) (k : PyObject) (e : PyErr) :
  (forall k, final (f k row0) = row0) ->
  Forall2 (fun k v => outcome (f k row0) = Ok v) keys1 vs1 ->
  outcome (f k row0) = Err e ->
  project_keys f (keys1 ++ k :: keys2) row0 = (Err e, row0).
Proof.
  intros Hframe H Hk. induction H as [|k1 v keys1 vs1 Hk1 _ IH].
  - simpl. unfold bind at 1. specialize (Hframe k). unfold final, outcome in *.
    destruct (f k row0) as [r s1]. simpl in *. subst. reflexivity.
  - simpl. unfold bind at 1. specialize (Hframe k1). unfold final, outcome in *.
    destruct (f k1 row0) as [r s1]. simpl in *. subst.
    unfold bind at 1. rewrite IH. reflexivity.
Qed.

Section projector.
Context `{RT : PyRuntime}.

(** X20. Whatever the keys are, a projector called on a row either fails
    or returns a tuple with exactly one value for each key it was built
    with; the row is as before. *)
Theorem tuplegetter_call_arity (keys : list PyObject) (tg : tuplegetterobject)
    (self : BaseRow) (v : PyObject) :
  tuplegetter_new keys [] = Ok tg ->
  outcome (tuplegetter_call tg self) = Ok v ->
  exists vs, v = PyTuple vs /\ length vs = length keys /\
             tuplegetter_call tg self = (Ok (PyTuple vs), self).
Proof.
  intros [= <-]. unfold tuplegetter_call.
  rewrite tuplegetter_call_on_project
    by (intros args; apply BaseRow_get_by_key_impl_mapping_final).
  destruct (project_keys _ keys self) as [[vs|e|] s'] eqn:Hproj; try discriminate.
  unfold outcome. cbn [fst]. intros [= <-].
  exists vs. split; [reflexivity|]. split; [|reflexivity].
  exact (project_keys_length _ _ _ _ _ Hproj).
Qed.

(** X21. For keys that are not tuples: when every keyed lookup succeeds
    the projector returns the tuple of the values in key order; when
    the lookups before some key succeed and the lookup of that key
    fails, the projector fails with that failure and returns no tuple. *)
Theorem tuplegetter_call_values (keys : list PyObject) (self : BaseRow) :
  Forall (fun k => is_tuple k = false) keys ->
  (forall vs,
     Forall2 (fun k v => outcome (BaseRow_subscript_mapping k self) = Ok v) keys vs ->
     tuplegetter_call (mktuplegetter (length keys) (PyTuple keys)) self
       = (Ok (PyTuple vs), self)) /\
  (forall keys1 k keys2 vs1 e,
     keys = keys1 ++ k :: keys2 ->
     Forall2 (fun k v => outcome (BaseRow_subscript_mapping k self) = Ok v) keys1 vs1 ->
     outcome (BaseRow_subscript_mapping k self) = Err e ->
     tuplegetter_call (mktuplegetter (length keys) (PyTuple keys)) self = (Err e, self)).
Proof.
  intros Hplain. rewrite (tuplegetter_call_plain_keys keys self Hplain). split.
  - intros vs Hall.
    rewrite (project_keys_all_ok BaseRow_subscript_mapping self keys vs);
      [reflexivity| |exact Hall].
    intros k. apply BaseRow_subscript_impl_final.
  - intros keys1 k keys2 vs1 e -> Hall Hk.
    rewrite (project_keys_first_failure BaseRow_subscript_mapping self keys1 keys2 vs1 k e);
      [reflexivity| |exact Hall|exact Hk].
    intros k'. apply BaseRow_subscript_impl_final.
Qed.

(** X22. A projector whose only key is a tuple calls the lookup method
    with the items of that tuple: with one item it returns the lookup
    of the item, not of the tuple; with any other number of items it
    fails with [TypeError]. *)
Theorem tuplegetter_call_single_tuple_key (items : list PyObject) (self : BaseRow) :
  tuplegetter_call (mktuplegetter 1 (PyTuple [PyTuple items])) self =
  match items with
  | [k] =>
      match outcome (BaseRow_subscript_mapping k self) with
      | Ok v => (Ok (PyTuple [v]), self)
      | Err e => (Err e, self)
      | Fault => (Fault, self)
      end
  | _ =>
      (Err (mkPyErr PyExc_TypeError
              (PyUnicode
                 ("BaseRow._get_by_key_impl_mapping() takes exactly one argument (" +:+
                  pretty (length items) +:+ " given)"))), self)
  end.
Proof.
  unfold tuplegetter_call.
  rewrite (tuplegetter_call_on_project BaseRow_get_by_key_impl_mapping self [PyTuple items])
    by (intros args; apply BaseRow_get_by_key_impl_mapping_final).
  cbn [project_keys call_args_O]. unfold bind at 1.
  destruct items as [|k [|k' items]]; try reflexivity.
  cbn [BaseRow_get_by_key_impl_mapping call_METH_O].
  unfold BaseRow_get_by_key_impl_mapping, call_METH_O, outcome.
  destruct (BaseRow_subscript_mapping k self) as [[v|e|] s']; reflexivity.
Qed.

End projector.

(** X23. [tuplegetter] refuses keyword arguments; a projector that was
    built reduces to its type and its keys, and calling the type on
    those keys builds the same projector again. *)
Theorem tuplegetter_reduce_roundtrip (args : list PyObject)
    (kwds : list (PyObject * PyObject)) :
  (kwds <> [] ->
   tuplegetter_new args kwds =
     Err (mkPyErr PyExc_TypeError
            (PyUnicode "tuplegetter() takes no keyword arguments"))) /\
  (forall tg type,
     tuplegetter_new args kwds = Ok tg ->
     nitems tg = length args /\
     tuplegetter_reduce type tg = PyTuple [type; PyTuple args] /\
     (forall args', item tg = PyTuple args' -> tuplegetter_new args' [] = Ok tg)).
Proof.
  split.
  - destruct kwds; [congruence|]. reflexivity.
  - intros tg type. destruct kwds; [|discriminate]. intros [= <-].
    split; [reflexivity|]. split; [reflexivity|]. intros args' [= <-]. reflexivity.
Qed.

Lemma tuplegetter_call_arity_witness :
  tuplegetter_new [PyUnicode "x"; PyUnicode "z"] [] =
    Ok (mktuplegetter 2 (PyTuple [PyUnicode "x"; PyUnicode "z"])) /\
  exists vs,
    PyTuple [PyLong 10; PyLong 20] = PyTuple vs /\ length vs = 2 /\
    @tuplegetter_call Fixture.runtime
      (mktuplegetter 2 (PyTuple [PyUnicode "x"; PyUnicode "z"])) Fixture.row1
      = (Ok (PyTuple vs), Fixture.row1).
Proof.
  split; [reflexivity|].
  exact (@tuplegetter_call_arity Fixture.runtime [PyUnicode "x"; PyUnicode "z"] _
           Fixture.row1 (PyTuple [PyLong 10; PyLong 20]) eq_refl eq_refl).
Defined.

Lemma tuplegetter_call_values_witness :
  Forall (fun k => is_tuple k = false) [PyUnicode "x"; PyUnicode "q"; PyUnicode "z"] /\
  @tuplegetter_call Fixture.runtime
    (mktuplegetter 3 (PyTuple [PyUnicode "x"; PyUnicode "q"; PyUnicode "z"])) Fixture.row1
    = (Err (mkPyErr Fixture.NoSuchColumnError (PyUnicode "Could not locate column in row")),
       Fixture.row1).
Proof.
  assert (Hplain : Forall (fun k => is_tuple k = false)
                     [PyUnicode "x"; PyUnicode "q"; PyUnicode "z"]).
  { repeat constructor. }
  split; [exact Hplain|].
  refine (proj2 (@tuplegetter_call_values Fixture.runtime
                   [PyUnicode "x"; PyUnicode "q"; PyUnicode "z"] Fixture.row1 Hplain)
            [PyUnicode "x"] (PyUnicode "q") [PyUnicode "z"] [PyLong 10] _
            eq_refl _ eq_refl).
  repeat constructor.
Defined.

(** ** Attribute access to a column *)

Lemma PyTuple_GetItem_error_not_KeyError (op : PyObject) (i : Z) (e : PyErr) :
  PyTuple_GetItem op i = Err e -> PyErr_ExceptionMatches e PyExc_KeyError = false.
Proof.
  unfold PyTuple_GetItem. destruct op; try (intros [= <-]; reflexivity).
  destruct (i <? 0)%Z; [intros [= <-]; reflexivity|].
  destruct (items !! Z.to_nat i); [discriminate|]. intros [= <-]. reflexivity.
Qed.

Section attribute_access.
Context `{RT : PyRuntime}.

(** X24. For a name that is no attribute of the object and whose record
    carries the integer index [idx], attribute access is positional
    access at [idx]: the same value, or the same failure, an
    [IndexError] of a record that points outside the row included. *)
Theorem getattro_is_positional (self : BaseRow) (name : string) (e0 : PyErr)
    (record : PyObject) (idx : Z) :
  PyObject_GenericGetAttr self name = Err e0 ->
  PyErr_ExceptionMatches e0 PyExc_AttributeError = true ->
  outcome (lookup_record (PyUnicode name) self) = Ok record ->
  PyTuple_GetItem record 0 = Ok (PyLong idx) ->
  (LONG_MIN <= idx <= LONG_MAX)%Z ->
  BaseRow_getattro name self = BaseRow_getitem idx self.
Proof.
  intros Hgen Hattr Hrec Hidx Hlong. unfold BaseRow_getattro. rewrite Hgen, Hattr.
  cbn [negb].
  change (BaseRow_subscript_mapping (PyUnicode name) self)
    with (BaseRow_getitem_by_object (PyUnicode name) self).
  rewrite (BaseRow_getitem_by_object_index _ _ _ _ Hrec Hidx Hlong).
  unfold BaseRow_getitem, bind, deref, lift.
  destruct (row self) as [r|]; [|reflexivity].
  destruct (PyTuple_GetItem r idx) as [v|e|] eqn:Hget; [reflexivity| |reflexivity].
  rewrite (PyTuple_GetItem_error_not_KeyError _ _ _ Hget). reflexivity.
Qed.

(** X25. Pickling a row whose class defines no [__getstate__]: when the
    attribute is not found and the keyed lookup of ["__getstate__"]
    fails with a [KeyError], [BaseRow_reduce] fails with the
    [AttributeError] of a missing column, before any import is done. *)
Theorem BaseRow_reduce_without_getstate (self : BaseRow) (e0 e : PyErr) :
  PyObject_GenericGetAttr self "__getstate__" = Err e0 ->
  PyErr_ExceptionMatches e0 PyExc_AttributeError = true ->
  outcome (BaseRow_getitem_by_object (PyUnicode "__getstate__") self) = Err e ->
  PyErr_ExceptionMatches e PyExc_KeyError = true ->
  BaseRow_reduce self =
    (Err (mkPyErr PyExc_AttributeError
            (PyUnicode "Could not locate column in row for column '__getstate__'")),
     self).
Proof.
  intros Hgen Hattr Hkey Hmatch. unfold BaseRow_reduce. unfold bind at 1.
  unfold BaseRow_getattro. rewrite Hgen, Hattr. cbn [negb].
  change (BaseRow_subscript_mapping (PyUnicode "__getstate__") self)
    with (BaseRow_getitem_by_object (PyUnicode "__getstate__") self).
  pose proof (BaseRow_getitem_by_object_final (PyUnicode "__getstate__") self) as Hfin.
  unfold outcome in Hkey. unfold final in Hfin.
  destruct (BaseRow_getitem_by_object (PyUnicode "__getstate__") self) as [r s'].
  simpl in Hkey, Hfin. subst. rewrite Hmatch. reflexivity.
Qed.

End attribute_access.

Lemma getattro_is_positional_witness :
  outcome (@lookup_record Fixture.runtime (PyUnicode "z") Fixture.row1) =
    Ok (PyTuple [PyLong 1; PyUnicode "z"; PyUnicode "z"]) /\
  @BaseRow_getattro Fixture.runtime "z" Fixture.row1 = (Ok (PyLong 20), Fixture.row1).
Proof.
  split; [reflexivity|].
  exact (eq_trans
           (@getattro_is_positional Fixture.runtime Fixture.row1 "z" _
              (PyTuple [PyLong 1; PyUnicode "z"; PyUnicode "z"]) 1
              eq_refl eq_refl eq_refl eq_refl ltac:(unfold LONG_MIN, LONG_MAX; lia))
           eq_refl).
Defined.

Lemma BaseRow_reduce_without_getstate_witness :
  (exists e,
     outcome (@BaseRow_getitem_by_object Fixture.runtime (PyUnicode "__getstate__")
                Fixture.row1) = Err e /\
     PyErr_ExceptionMatches e PyExc_KeyError = true) /\
  @BaseRow_reduce Fixture.runtime Fixture.row1 =
    (Err (mkPyErr PyExc_AttributeError
            (PyUnicode "Could not locate column in row for column '__getstate__'")),
     Fixture.row1).
Proof.
  split; [eexists; split; reflexivity|].
  exact (@BaseRow_reduce_without_getstate Fixture.runtime Fixture.row1 _ _
           eq_refl eq_refl eq_refl eq_refl).
Defined.

(** ** Slices *)

(** X26. Subscripting a row with a slice slices what the row holds and
    answers with a tuple of the items of that slice, also when the row
    holds a list; a failure of the slicing is the failure of the
    access. *)
Theorem BaseRow_subscript_slice `{RT : PyRuntime} (self : BaseRow) (key r : PyObject) :
  PySlice_Check key = true ->
  row self = Some r ->
  (forall values items,
     PyObject_GetItem r key = Ok values -> iter_items values = Some items ->
     BaseRow_subscript key self = (Ok (PyTuple items), self) /\
     BaseRow_subscript_mapping key self = (Ok (PyTuple items), self)) /\
  (forall e,
     PyObject_GetItem r key = Err e ->
     BaseRow_subscript key self = (Err e, self) /\
     BaseRow_subscript_mapping key self = (Err e, self)).
Proof.
  intros Hslice Hrow.
  assert (Hint : PyLong_CheckExact key = false) by (destruct key; try discriminate; reflexivity).
  unfold BaseRow_subscript, BaseRow_subscript_mapping, BaseRow_subscript_impl.
  rewrite Hint, Hslice. unfold bind, lift. rewrite Hrow. split.
  - intros values items -> Hitems. unfold BaseRow_valuescollection, PySequence_Tuple.
    rewrite Hitems. split; reflexivity.
  - intros e ->. split; reflexivity.
Qed.

Lemma BaseRow_subscript_slice_witness :
  PySlice_Check (PySlice (PyLong 1) (PyLong 3) Py_None) = true /\
  @BaseRow_subscript Rows.slicing_runtime (PySlice (PyLong 1) (PyLong 3) Py_None) Rows.row4
    = (Ok (PyTuple [PyLong 20; PyLong 30]), Rows.row4) /\
  @BaseRow_subscript Rows.slicing_runtime (PySlice Py_None (PyLong 3) Py_None) Rows.row4
    = (Err (mkPyErr PyExc_TypeError (PyUnicode "unsupported index")), Rows.row4).
Proof.
  split; [reflexivity|]. split.
  - exact (proj1 (proj1 (@BaseRow_subscript_slice Rows.slicing_runtime Rows.row4
                           (PySlice (PyLong 1) (PyLong 3) Py_None) _ eq_refl eq_refl)
                    _ _ eq_refl eq_refl)).
  - exact (proj1 (proj2 (@BaseRow_subscript_slice Rows.slicing_runtime Rows.row4
                           (PySlice Py_None (PyLong 3) Py_None) _ eq_refl eq_refl)
                    _ eq_refl)).
Defined.
